(** * The Acceptor side of the shared-memory IPC channel

    A shallow embedding of [backend/python_bidirectional_ipc_script.py]:
    the control block layout, the processing of a Creator message, the
    respond operation, the attach loop, the start-up sequence and the
    polling loop, followed by the properties of the protocol engine. *)

From Stdlib Require Import ZArith NArith QArith Qpower List Bool Lia Lqa.
From Stdlib Require Import Strings.String Strings.Ascii Strings.Byte DecimalString.
Import ListNotations.

Local Open Scope Z_scope.

(** ** Layout of a [ctypes.Structure]

    [ctypes] lays the fields out in declaration order with the native
    alignment of the C compiler: every field starts at the next multiple
    of its alignment and the size of the record is rounded up to the
    largest alignment of its fields.  No [_pack_] is given in the source. *)
Module Layout.

Record ctype := CType { size_of : Z; align_of : Z }.

Definition c_int32 : ctype := CType 4 4.
Definition c_size_t (w : Z) : ctype := CType w w.
(** [ctypes.c_char * n] *)
Definition c_char_array (n : Z) : ctype := CType n 1.

Definition align_up (off a : Z) : Z := ((off + a - 1) / a) * a.

(** Offset past the field and largest alignment seen, after one more field. *)
Definition place (acc : Z * Z) (t : ctype) : Z * Z :=
  (align_up (fst acc) (align_of t) + size_of t, Z.max (snd acc) (align_of t)).

Definition sizeof_struct (fields : list ctype) : Z :=
  let acc := fold_left place fields (0, 1) in
  align_up (fst acc) (snd acc).

(** Offsets of the fields, in declaration order. *)
Fixpoint offsets_from (off : Z) (fields : list ctype) : list Z :=
  match fields with
  | [] => []
  | t :: rest =>
      let o := align_up off (align_of t) in
      o :: offsets_from (o + size_of t) rest
  end.

(** [class SharedIPCBidirectional(ctypes.Structure)], for a platform whose
    [size_t] has [w] bytes.  The length of [_padding1] is the expression of
    the source: 128 - sizeof(c_int32)*2 - sizeof(c_size_t)*4. *)
Definition SharedIPCBidirectional_fields (w : Z) : list (string * ctype) :=
  [ ("c_to_a_command"%string, c_int32);
    ("c_to_a_data_len"%string, c_size_t w);
    ("a_to_c_status"%string, c_int32);
    ("a_to_c_data_len"%string, c_size_t w);
    ("defined_c2a_buffer_size"%string, c_size_t w);
    ("defined_a2c_buffer_size"%string, c_size_t w);
    ("_padding1"%string,
       c_char_array (128 - size_of c_int32 * 2 - size_of (c_size_t w) * 4)) ].

(** [SHM_CONTROL_BLOCK_SIZE = ctypes.sizeof(SharedIPCBidirectional)] *)
Definition SHM_CONTROL_BLOCK_SIZE (w : Z) : Z :=
  sizeof_struct (map snd (SharedIPCBidirectional_fields w)).

Definition field_offsets (w : Z) : list Z :=
  offsets_from 0 (map snd (SharedIPCBidirectional_fields w)).

End Layout.

(** ** The shared segment and the process state *)

(** The fields of the control block as [ctypes] presents them: [c_int32]
    fields read as signed integers, [c_size_t] fields as naturals. *)
Record SharedIPCBidirectional := SHM {
  c_to_a_command : Z;
  c_to_a_data_len : N;
  a_to_c_status : Z;
  a_to_c_data_len : N;
  defined_c2a_buffer_size : N;
  defined_a2c_buffer_size : N }.

Definition with_c_to_a_command (v : Z) (s : SharedIPCBidirectional) :=
  SHM v (c_to_a_data_len s) (a_to_c_status s) (a_to_c_data_len s)
      (defined_c2a_buffer_size s) (defined_a2c_buffer_size s).
Definition with_a_to_c_status (v : Z) (s : SharedIPCBidirectional) :=
  SHM (c_to_a_command s) (c_to_a_data_len s) v (a_to_c_data_len s)
      (defined_c2a_buffer_size s) (defined_a2c_buffer_size s).
Definition with_a_to_c_data_len (v : N) (s : SharedIPCBidirectional) :=
  SHM (c_to_a_command s) (c_to_a_data_len s) (a_to_c_status s) v
      (defined_c2a_buffer_size s) (defined_a2c_buffer_size s).

(** What lies outside the Acceptor's sequential code: the segment (header
    and the bytes that follow it), the [running] flag that the signal
    handler clears, and the clock read by [time.time()], in seconds.  A
    segment too short to hold the header is the case [mmap_too_short] of
    [os_calls]: start-up ends before anything of it is read. *)
Record world := World {
  shm : SharedIPCBidirectional;
  buffers : list byte;
  running : bool;
  now : Q }.

Definition with_shm (f : SharedIPCBidirectional -> SharedIPCBidirectional)
  (w : world) : world :=
  World (f (shm w)) (buffers w) (running w) (now w).
Definition with_buffers (b : list byte) (w : world) : world :=
  World (shm w) b (running w) (now w).
Definition with_running (r : bool) (w : world) : world :=
  World (shm w) (buffers w) r (now w).

(** Observable actions of the Acceptor. *)
Inductive event :=
| EvShmOpen (attempt : nat) (fd : Z)
| EvSleep (seconds : Q)
| EvReadC2A (offset length : N)
| EvProcess (input : list byte)
| EvWriteA2C (offset : N) (data : list byte)
| EvFlush
| EvSetA2CDataLen (n : N)
| EvSetA2CStatus (s : Z)
| EvSetC2ACommand (c : Z)
| EvStop
| EvCloseMmap                     (* the call of [mmap_obj.close()] *)
| EvCloseFd (fd : Z).

(** The global [shm_struct]: [None], the record laid over the mapping by
    [from_buffer], or the private copy made by [from_buffer_copy]. *)
Inductive struct_view :=
| NoStruct
| InPlace
| Snapshot (s : SharedIPCBidirectional).

(** The module globals together with the outside world.  [log] keeps every
    action with the control block as the Acceptor sees it just after. *)
Record machine := Machine {
  ext : world;
  shm_fd : Z;
  mmap_obj : bool;
  shm_struct : struct_view;
  ACTUAL_C2A_BUFFER_SIZE : N;
  ACTUAL_A2C_BUFFER_SIZE : N;
  ticks : nat;
  log : list (event * SharedIPCBidirectional) }.

Definition with_ext (f : world -> world) (m : machine) : machine :=
  Machine (f (ext m)) (shm_fd m) (mmap_obj m) (shm_struct m)
          (ACTUAL_C2A_BUFFER_SIZE m) (ACTUAL_A2C_BUFFER_SIZE m) (ticks m) (log m).
Definition with_shm_fd (fd : Z) (m : machine) : machine :=
  Machine (ext m) fd (mmap_obj m) (shm_struct m)
          (ACTUAL_C2A_BUFFER_SIZE m) (ACTUAL_A2C_BUFFER_SIZE m) (ticks m) (log m).
Definition with_mmap_obj (b : bool) (m : machine) : machine :=
  Machine (ext m) (shm_fd m) b (shm_struct m)
          (ACTUAL_C2A_BUFFER_SIZE m) (ACTUAL_A2C_BUFFER_SIZE m) (ticks m) (log m).
Definition with_shm_struct (v : struct_view) (m : machine) : machine :=
  Machine (ext m) (shm_fd m) (mmap_obj m) v
          (ACTUAL_C2A_BUFFER_SIZE m) (ACTUAL_A2C_BUFFER_SIZE m) (ticks m) (log m).
Definition with_actual_sizes (c2a a2c : N) (m : machine) : machine :=
  Machine (ext m) (shm_fd m) (mmap_obj m) (shm_struct m) c2a a2c (ticks m) (log m).
Definition with_log (l : list (event * SharedIPCBidirectional)) (m : machine) :=
  Machine (ext m) (shm_fd m) (mmap_obj m) (shm_struct m)
          (ACTUAL_C2A_BUFFER_SIZE m) (ACTUAL_A2C_BUFFER_SIZE m) (ticks m) l.

(** The control block as read through [shm_struct]. *)
Definition hdr (m : machine) : SharedIPCBidirectional :=
  match shm_struct m with
  | Snapshot s => s
  | _ => shm (ext m)
  end.

(** A field assignment through [shm_struct]. *)
Definition upd_hdr (f : SharedIPCBidirectional -> SharedIPCBidirectional)
  (m : machine) : machine :=
  match shm_struct m with
  | Snapshot s => with_shm_struct (Snapshot (f s)) m
  | _ => with_ext (with_shm f) m
  end.

Definition record (e : event) (m : machine) : machine :=
  with_log (log m ++ [(e, hdr m)]) m.

Definition events (m : machine) : list event := map fst (log m).

(** The modules loaded at import time and the system calls of start-up:
    their outcomes are inputs of the model. *)
Record os_calls := OsCalls {
  c_shm_open : nat -> Z;          (* result of the call of each attempt *)
  fstat_raises : bool;
  mmap_raises : bool;
  from_buffer_raises : bool;      (* TypeError *)
  from_buffer_copy_raises : bool;
  c_close : bool;                 (* [libc.close] was found *)
  mmap_too_short : bool }.        (* the mapping is shorter than the record:
                                     [from_buffer] raises ValueError *)

(** Results of code with busy-wait loops: the loops are unrolled at most
    [fuel] times each, and [Spinning] carries the state reached when a loop
    is still turning after that many rounds. *)
Inductive result (A : Type) :=
| Done (m : machine) (a : A)
| Spinning (m : machine).
Arguments Done {A} m a.
Arguments Spinning {A} m.

Definition state_of {A} (r : result A) : machine :=
  match r with Done m _ => m | Spinning m => m end.

(** How the wait for [a_to_c_status == 0] ended. *)
Inductive wait_exit := Ready | Stopped | TimedOut.

(** Fixed payloads of the source. *)
Definition msg_too_large : list byte :=
  list_byte_of_string "Error: Creator data too large".
Definition msg_no_view : list byte :=
  list_byte_of_string "Error: Failed to get C2A buffer view".
Definition msg_processing_failed : list byte :=
  list_byte_of_string "Error during Python processing".
Definition msg_empty_ack : list byte :=
  list_byte_of_string "Acknowledged empty Creator message".
Definition msg_no_response : list byte :=
  list_byte_of_string "Error during Creator data processing in Acceptor".

(** The exceptions of start-up that no handler of [main_loop] catches. *)
Inductive exception := BufferError | ValueError.

(** How a call of [main_loop] ends: [sys.exit(code)], a plain return, or an
    exception that leaves it uncaught. *)
Inductive outcome := SysExit (code : Z) | Returned | Uncaught (e : exception).

(** Exit status of the interpreter: an uncaught exception prints the
    traceback and ends the process with status 1. *)
Definition exit_status (o : outcome) : Z :=
  match o with SysExit c => c | Returned => 0 | Uncaught _ => 1 end.

(** How start-up ends: the loop is entered, [sys.exit(code)] is called, or
    an exception leaves [main_loop]. *)
Inductive startup :=
| Proceed (m : machine)
| Fatal (m : machine) (code : Z)
| Raises (m : machine) (e : exception).

(** ** The Acceptor *)
Section Acceptor.

(** [SHM_CONTROL_BLOCK_SIZE = ctypes.sizeof(SharedIPCBidirectional)], a
    constant of the platform: [Layout.SHM_CONTROL_BLOCK_SIZE] at the width of
    its [size_t]. *)
Variable SHM_CONTROL_BLOCK_SIZE : N.
(** What the Creator, the signals and the clock do during the [k]-th call
    of [time.sleep]: sleeping is where the Acceptor yields. *)
Variable env : nat -> world -> world.
(** The example processing block (numpy and OpenCV): the response bytes, or
    [None] when it raises. *)
Variable example_processing : list byte -> option (list byte).
Variable os : os_calls.

(** [mmap_obj.size()]: the control block and the bytes after it. *)
Definition mmap_size (m : machine) : N :=
  SHM_CONTROL_BLOCK_SIZE + N.of_nat (List.length (buffers (ext m))).

(** [mmap_obj[offset:offset+length]], for a slice that starts at or after
    the end of the control block. *)
Definition mmap_slice (offset length : N) (m : machine) : list byte :=
  firstn (N.to_nat length)
         (skipn (N.to_nat (offset - SHM_CONTROL_BLOCK_SIZE)) (buffers (ext m))).

(** [time.sleep(seconds)] *)
Definition sleep (seconds : Q) (m : machine) : machine :=
  record (EvSleep seconds)
    (Machine (env (ticks m) (ext m)) (shm_fd m) (mmap_obj m) (shm_struct m)
       (ACTUAL_C2A_BUFFER_SIZE m) (ACTUAL_A2C_BUFFER_SIZE m) (S (ticks m)) (log m)).

Definition set_a_to_c_data_len (n : N) (m : machine) : machine :=
  record (EvSetA2CDataLen n) (upd_hdr (with_a_to_c_data_len n) m).
Definition set_a_to_c_status (s : Z) (m : machine) : machine :=
  record (EvSetA2CStatus s) (upd_hdr (with_a_to_c_status s) m).
Definition set_c_to_a_command (c : Z) (m : machine) : machine :=
  record (EvSetC2ACommand c) (upd_hdr (with_c_to_a_command c) m).
(** [running = False] in the shutdown branch *)
Definition stop (m : machine) : machine :=
  record EvStop (with_ext (with_running false) m).

Definition get_buffer_view (offset length : N) (m : machine)
  : machine * option (list byte) :=
  if mmap_obj m && (offset + length <=? mmap_size m)%N
  then (record (EvReadC2A offset length) m, Some (mmap_slice offset length m))
  else (m, None).

Definition process_data_from_creator (data_len : N) (m : machine)
  : machine * option (list byte) :=
  if (0 <? data_len)%N then
    if (ACTUAL_C2A_BUFFER_SIZE m <? data_len)%N then (m, Some msg_too_large)
    else
      let c2a_buffer_offset := SHM_CONTROL_BLOCK_SIZE in
      match get_buffer_view c2a_buffer_offset data_len m with
      | (m1, None) => (m1, Some msg_no_view)
      | (m1, Some input_bytes) =>
          let m2 := record (EvProcess input_bytes) m1 in
          match example_processing input_bytes with
          | Some response_data => (m2, Some response_data)
          | None => (m2, Some msg_processing_failed)
          end
      end
  else (m, Some msg_empty_ack).

(** [while shm_struct.a_to_c_status != 0 and running: time.sleep(0.005)] *)
Fixpoint wait_while_busy (fuel : nat) (m : machine) : result unit :=
  if negb (a_to_c_status (hdr m) =? 0) && running (ext m) then
    match fuel with
    | O => Spinning m
    | S fuel' => wait_while_busy fuel' (sleep (5 # 1000) m)
    end
  else Done m tt.

(** The wait with a deadline:
    [while status != 0: if not running: ...; if time.time() - start > limit: ...; time.sleep(0.005)] *)
Fixpoint wait_for_ack (fuel : nat) (limit wait_start_time : Q) (m : machine)
  : result wait_exit :=
  if a_to_c_status (hdr m) =? 0 then Done m Ready
  else if negb (running (ext m)) then Done m Stopped
  else if negb (Qle_bool (now (ext m) - wait_start_time) limit) then Done m TimedOut
  else
    match fuel with
    | O => Spinning m
    | S fuel' => wait_for_ack fuel' limit wait_start_time (sleep (5 # 1000) m)
    end.

(** [mmap_obj.seek(offset); mmap_obj.write(data)]: [None] when the write
    would pass the end of the mapping, where [mmap] raises [ValueError]. *)
Definition mmap_write (offset : N) (data : list byte) (m : machine)
  : option machine :=
  if (offset + N.of_nat (List.length data) <=? mmap_size m)%N then
    let i := N.to_nat (offset - SHM_CONTROL_BLOCK_SIZE) in
    let b := buffers (ext m) in
    Some (record (EvWriteA2C offset data)
            (with_ext (with_buffers
                         (firstn i b ++ data ++ skipn (i + List.length data) b)) m))
  else None.

(** The [except] block of [send_data_to_creator]: a short wait, then the
    error signal when the Creator is ready for it. *)
Definition signal_send_error (fuel : nat) (m : machine) : result bool :=
  match wait_for_ack fuel (1 # 2) (now (ext m)) m with
  | Spinning m1 => Spinning m1
  | Done m1 _ =>
      if running (ext m1) && (a_to_c_status (hdr m1) =? 0)
      then Done (set_a_to_c_status (-1) (set_a_to_c_data_len 0 m1)) false
      else Done m1 false
  end.

Definition send_data_to_creator (fuel : nat) (data_bytes : list byte)
  (m : machine) : result bool :=
  if match shm_struct m with NoStruct => true | _ => false end
     || negb (mmap_obj m)
  then Done m false
  else
    let data_len := N.of_nat (List.length data_bytes) in
    let a2c_buffer_offset := (SHM_CONTROL_BLOCK_SIZE + ACTUAL_C2A_BUFFER_SIZE m)%N in
    if (ACTUAL_A2C_BUFFER_SIZE m <? data_len)%N then
      match wait_while_busy fuel m with
      | Spinning m1 => Spinning m1
      | Done m1 _ =>
          if negb (running (ext m1)) then Done m1 false
          else Done (set_a_to_c_status (-1) (set_a_to_c_data_len 0 m1)) false
      end
    else
      match wait_for_ack fuel 5 (now (ext m)) m with
      | Spinning m1 => Spinning m1
      | Done m1 Stopped => Done m1 false
      | Done m1 TimedOut => Done m1 false
      | Done m1 Ready =>
          if (mmap_size m1 <? a2c_buffer_offset + data_len)%N then Done m1 false
          else
            match mmap_write a2c_buffer_offset data_bytes m1 with
            | Some m2 =>
                let m3 := record EvFlush m2 in
                (* Set length first, then status *)
                let m4 := set_a_to_c_data_len data_len m3 in
                let m5 := set_a_to_c_status 1 m4 in
                Done m5 true
            | None => signal_send_error fuel m1
            end
      end.

(** The [command == 1] branch of the polling loop. *)
Definition data_ready (fuel : nat) (m : machine) : result unit :=
  let data_len := c_to_a_data_len (hdr m) in
  let (m1, response_bytes) := process_data_from_creator data_len m in
  let sent :=
    match response_bytes with
    | Some bytes => send_data_to_creator fuel bytes m1
    | None => send_data_to_creator fuel msg_no_response m1
    end in
  match sent with
  | Spinning m2 => Spinning m2
  | Done m2 _ => Done (set_c_to_a_command 0 m2) tt
  end.

(** [while running: ...], at most [rounds] iterations.  Nothing in the body
    raises in this model, so the [except Exception] handler of the loop has
    no case here. *)
Fixpoint polling_loop (rounds fuel : nat) (m : machine) : result unit :=
  match rounds with
  | O => if running (ext m) then Spinning m else Done m tt
  | S rounds' =>
      if negb (running (ext m)) then Done m tt
      else
        let command := c_to_a_command (hdr m) in
        if command =? 1 then
          match data_ready fuel m with
          | Spinning m1 => Spinning m1
          | Done m1 _ => polling_loop rounds' fuel m1
          end
        else if command =? 99 then
          Done (stop (set_c_to_a_command 0 m)) tt
        else if command =? 0 then
          polling_loop rounds' fuel (sleep (5 # 1000) m)
        else
          polling_loop rounds' fuel (sleep (1 # 100) (set_c_to_a_command 0 m))
  end.

(** [if c_close and shm_fd != -1: c_close(shm_fd)] *)
Definition close_fd (m : machine) : machine :=
  if c_close os && negb (shm_fd m =? -1) then record (EvCloseFd (shm_fd m)) m
  else m.

(** [mmap_obj.close()] raises [BufferError] while the mapping is exported:
    the record made by [from_buffer] holds such an export as long as
    [shm_struct] refers to it; a record made by [from_buffer_copy] holds
    none. *)
Definition close_raises (m : machine) : bool :=
  match shm_struct m with InPlace => true | _ => false end.

(** [if mmap_obj: mmap_obj.close()]: [EvCloseMmap] is the call.  This is the
    call where its exception cannot get out: in the [finally] block, inside
    [try: ... except Exception], or where [close_raises] is false. *)
Definition close_mmap (m : machine) : machine :=
  if mmap_obj m then record EvCloseMmap m else m.

(** The [finally] block of [main_loop]: a [BufferError] of the call is
    caught and printed, and the descriptor is closed after it. *)
Definition cleanup (m : machine) : machine := close_fd (close_mmap m).

(** [if mmap_obj: mmap_obj.close()], [if c_close and shm_fd != -1:
    c_close(shm_fd)], [sys.exit(1)] as the handlers of start-up have them,
    outside any [try]: a [BufferError] of the first call leaves [main_loop]
    and the two others are not reached. *)
Definition close_and_exit (m : machine) : startup :=
  if mmap_obj m && close_raises m then Raises (record EvCloseMmap m) BufferError
  else Fatal (close_fd (close_mmap m)) 1.

Definition attach_attempts : nat := 5.

(** [for attempt in range(attach_attempts): ...] *)
Fixpoint open_segment (attempts : list nat) (attach_delay : Q) (m : machine)
  : startup :=
  match attempts with
  | [] => Proceed m
  | attempt :: rest =>
      let fd := c_shm_open os attempt in
      let m1 := record (EvShmOpen attempt fd) (with_shm_fd fd m) in
      if negb (fd =? -1) then Proceed m1
      else if (attempt =? attach_attempts - 1)%nat then Fatal m1 1
      else open_segment rest (attach_delay * (3 # 2)) (sleep attach_delay m1)
  end.

(** [os.fstat(shm_fd)] and [mmap.mmap(shm_fd, reported_shm_size, ...)] *)
Definition map_segment (m : machine) : startup :=
  if fstat_raises os then Fatal (close_fd m) 1
  else if mmap_raises os then Fatal (close_fd m) 1
  else Proceed (with_mmap_obj true m).

(** [SharedIPCBidirectional.from_buffer(mmap_obj)], with its fallback.
    Only [TypeError] is caught: the [ValueError] of a mapping shorter than
    the record leaves [main_loop], with nothing closed. *)
Definition map_control_structure (m : machine) : startup :=
  if from_buffer_raises os then
    if from_buffer_copy_raises os then close_and_exit m
    else Proceed (with_shm_struct (Snapshot (shm (ext m))) m)
  else if mmap_too_short os then Raises m ValueError
  else Proceed (with_shm_struct InPlace m).

(** Reading the declared buffer sizes; a zero raises [ValueError], and its
    handler closes and exits. *)
Definition read_defined_sizes (m : machine) : startup :=
  let m1 := with_actual_sizes (defined_c2a_buffer_size (hdr m))
                              (defined_a2c_buffer_size (hdr m)) m in
  if (ACTUAL_C2A_BUFFER_SIZE m1 <=? 0)%N || (ACTUAL_A2C_BUFFER_SIZE m1 <=? 0)%N
  then close_and_exit m1
  else Proceed m1.

Definition and_then (s : startup) (k : machine -> startup) : startup :=
  match s with
  | Proceed m => k m
  | Fatal m code => Fatal m code
  | Raises m e => Raises m e
  end.

(** Opening and mapping the segment and laying the record over it. *)
Definition attach_and_map (m : machine) : startup :=
  and_then (open_segment (seq 0 attach_attempts) (1 # 10) (with_shm_fd (-1) m))
    (fun m1 => and_then (map_segment m1) map_control_structure).

(** [main_loop] up to "Initialization complete". *)
Definition initialise (m : machine) : startup :=
  and_then (attach_and_map m) read_defined_sizes.

(** The polling loop inside [try: ... finally: ...]. *)
Definition poll_and_clean_up (rounds fuel : nat) (m : machine) : result outcome :=
  match polling_loop rounds fuel m with
  | Spinning m1 => Spinning m1
  | Done m1 _ => Done (cleanup m1) Returned
  end.

Definition main_loop (rounds fuel : nat) (m : machine) : result outcome :=
  match initialise m with
  | Fatal m1 code => Done m1 (SysExit code)
  | Raises m1 e => Done m1 (Uncaught e)
  | Proceed m1 => poll_and_clean_up rounds fuel m1
  end.

(** The globals as the module body leaves them. *)
Definition boot (w : world) : machine :=
  Machine (with_running true w) (-1) false NoStruct 0 0 0 [].

(** [if __name__ == "__main__": ...] *)
Definition script (argv : list string) (rounds fuel : nat) (w : world)
  : result outcome :=
  if negb (List.length argv =? 2)%nat then Done (boot w) (SysExit 1)
  else main_loop rounds fuel (boot w).

End Acceptor.

Arguments mmap_size : simpl never.

(** ** Vocabulary of the properties *)
Section Vocabulary.

Variable cb : N.
Variable env : nat -> world -> world.

(** [k] polls of 5 ms. *)
Fixpoint sleeps (k : nat) (m : machine) : machine :=
  match k with
  | O => m
  | S k' => sleeps k' (sleep env (5 # 1000) m)
  end.

(** The Acceptor still has to wait: the status is not 0 and no shutdown was
    asked for. *)
Definition busy (m : machine) : Prop :=
  a_to_c_status (hdr m) <> 0 /\ running (ext m) = true.

Definition released (m : machine) : Prop :=
  a_to_c_status (hdr m) = 0 \/ running (ext m) = false.

(** The error signal of the respond operation. *)
Definition signal_error (m : machine) : machine :=
  set_a_to_c_status (-1) (set_a_to_c_data_len 0 m).

(** The publication of a response whose bytes are in place. *)
Definition publish (n : N) (m : machine) : machine :=
  set_a_to_c_status 1 (set_a_to_c_data_len n (record EvFlush m)).

(** Every way [send_data_to_creator fuel data m] can end, after [k] polls
    of the status. *)
Inductive send_outcome (fuel : nat) (data : list byte) (m : machine)
  : result bool -> Prop :=
| SendNotInitialised :
    shm_struct m = NoStruct \/ mmap_obj m = false ->
    send_outcome fuel data m (Done m false)
| SendSpinning :
    busy (sleeps fuel m) ->
    send_outcome fuel data m (Spinning (sleeps fuel m))
| SendStopped k :
    (k <= fuel)%nat ->
    send_outcome fuel data m (Done (sleeps k m) false)
| SendTimedOut k :
    (k <= fuel)%nat ->
    (N.of_nat (List.length data) <= ACTUAL_A2C_BUFFER_SIZE m)%N ->
    a_to_c_status (hdr (sleeps k m)) <> 0 ->
    send_outcome fuel data m (Done (sleeps k m) false)
| SendOutOfBounds k :
    (k <= fuel)%nat ->
    (N.of_nat (List.length data) <= ACTUAL_A2C_BUFFER_SIZE m)%N ->
    a_to_c_status (hdr (sleeps k m)) = 0 ->
    (mmap_size cb (sleeps k m)
     < cb + ACTUAL_C2A_BUFFER_SIZE m + N.of_nat (List.length data))%N ->
    send_outcome fuel data m (Done (sleeps k m) false)
| SendTooLarge k :
    (k <= fuel)%nat ->
    (ACTUAL_A2C_BUFFER_SIZE m < N.of_nat (List.length data))%N ->
    a_to_c_status (hdr (sleeps k m)) = 0 ->
    running (ext (sleeps k m)) = true ->
    send_outcome fuel data m (Done (signal_error (sleeps k m)) false)
| SendPublished k m2 :
    (k <= fuel)%nat ->
    (N.of_nat (List.length data) <= ACTUAL_A2C_BUFFER_SIZE m)%N ->
    a_to_c_status (hdr (sleeps k m)) = 0 ->
    (cb + ACTUAL_C2A_BUFFER_SIZE m + N.of_nat (List.length data)
     <= mmap_size cb (sleeps k m))%N ->
    mmap_write cb (cb + ACTUAL_C2A_BUFFER_SIZE m) data (sleeps k m) = Some m2 ->
    send_outcome fuel data m (Done (publish (N.of_nat (List.length data)) m2) true).

(** Actions of the respond operation. *)
Definition respond_event (e : event) : bool :=
  match e with
  | EvSleep _ | EvWriteA2C _ _ | EvFlush | EvSetA2CDataLen _ | EvSetA2CStatus _ => true
  | _ => false
  end.

(** Actions on the inbound side: a read of the C2A buffer or a call of the
    processing block. *)
Definition inbound_event (e : event) : bool :=
  match e with
  | EvReadC2A _ _ | EvProcess _ => true
  | _ => false
  end.

Definition is_write (e : event) : bool :=
  match e with EvWriteA2C _ _ => true | _ => false end.

(** The acknowledgement that follows the respond operation. *)
Definition acknowledge (sent : result bool) : result unit :=
  match sent with
  | Spinning m2 => Spinning m2
  | Done m2 _ => Done (set_c_to_a_command 0 m2) tt
  end.

(** The delay before the retry that follows attempt [k]: 0.1 s, multiplied
    by 1.5 after each failure. *)
Fixpoint backoff (k : nat) : Q :=
  match k with
  | O => 1 # 10
  | S k' => backoff k' * (3 # 2)
  end.

(** The actions of [k] failed attempts, each followed by its sleep. *)
Definition failed_attempts (k : nat) : list event :=
  flat_map (fun a => [EvShmOpen a (-1); EvSleep (backoff a)]) (seq 0 k).

Definition attach_event (e : event) : bool :=
  match e with EvShmOpen _ _ | EvSleep _ => true | _ => false end.


Definition machine_of (s : startup) : machine :=
  match s with Proceed m => m | Fatal m _ => m | Raises m _ => m end.

End Vocabulary.

(** ** Concrete platforms, peers and segments *)

(** A peer that does nothing while the Acceptor sleeps. *)
Definition idle_creator : nat -> world -> world := fun _ w => w.

(** A peer that never touches the segment; the clock advances by the 5 ms
    of each sleep. *)
Definition stalled_creator : nat -> world -> world :=
  fun k w => World (shm w) (buffers w) (running w) (Z.of_nat (S k) * 5 # 1000).

(** The bytes of the example image: rows of the ten grey levels
    [int(i * (255.0 / 9))], each pixel as R, G, B and alpha 255. *)
Definition gradient_image : list byte :=
  let grey := ["000"; "028"; "056"; "085"; "113"; "141"; "170"; "198"; "226"; "255"]%byte in
  let row := flat_map (fun g => [g; g; g; "255"%byte]) grey in
  List.concat (repeat row 10).

Definition gradient_processing : list byte -> option (list byte) :=
  fun _ => Some gradient_image.

(** The control block size of an LP64 platform. *)
Definition lp64_block : N := Z.to_N (Layout.SHM_CONTROL_BLOCK_SIZE 8).

(** Every system call succeeds; [shm_open] returns descriptor 3. *)
Definition posix_ok : os_calls := OsCalls (fun _ => 3) false false false false true false.

(** The segment appears at the third attempt. *)
Definition late_segment : os_calls :=
  OsCalls (fun k => if (k <? 2)%nat then -1 else 3) false false false false true false.

(** The segment never appears. *)
Definition no_segment : os_calls :=
  OsCalls (fun _ => -1) false false false false true false.

(** An attached Acceptor: descriptor 3, the record laid over the mapping,
    [cap] bytes after the control block. *)
Definition attached (h : SharedIPCBidirectional) (cap : nat) : machine :=
  Machine (World h (repeat "000"%byte cap) true 0) 3 true InPlace
          (defined_c2a_buffer_size h) (defined_a2c_buffer_size h) 0 [].

(** ** The hex preview of a payload *)

Definition hex_digits : list ascii := list_ascii_of_string "0123456789ABCDEF".

Definition hex_digit (n : N) : ascii := nth (N.to_nat n) hex_digits "0"%char.

(** [byte_to_hex = lambda byte: format(byte, '02X')] *)
Definition byte_to_hex (b : byte) : string :=
  let n := Byte.to_N b in
  String (hex_digit (n / 16)) (String (hex_digit (n mod 16)) EmptyString).

(** Where a Python slice bound [i] falls in a sequence of [len] items: a
    negative bound counts from the end, and the result is clamped. *)
Definition slice_index (len i : Z) : nat :=
  Z.to_nat (Z.min len (Z.max 0 (if i <? 0 then i + len else i))).

(** [' '.join(map(byte_to_hex, data))] *)
Definition hex_join (data : list byte) : string :=
  String.concat " " (map byte_to_hex data).

Definition bytesToHexPreview (bytes_data : list byte) (max_bytes : Z) : string :=
  match bytes_data with
  | [] => "(no binary data)"
  | _ :: _ =>
      let length := Z.of_nat (List.length bytes_data) in
      if length <=? max_bytes * 2 then hex_join bytes_data
      else
        let first_part :=
          hex_join (firstn (slice_index length max_bytes) bytes_data) in
        let last_part :=
          hex_join (skipn (slice_index length (length - max_bytes)) bytes_data) in
        ("First " ++ NilZero.string_of_int (Z.to_int max_bytes) ++ ": " ++ first_part
         ++ " ... Last " ++ NilZero.string_of_int (Z.to_int max_bytes) ++ ": "
         ++ last_part)%string
  end.

(** The call of the source: [bytesToHexPreview(data_bytes)]. *)
Definition default_max_bytes : Z := 30.

(** Reading a preview back: pairs of hex digits separated by one space. *)
Fixpoint index_of (c : ascii) (l : list ascii) : option N :=
  match l with
  | [] => None
  | x :: rest =>
      if Ascii.eqb c x then Some 0%N else option_map N.succ (index_of c rest)
  end.

Definition hex_value (c : ascii) : option N := index_of c hex_digits.

Fixpoint hex_decode (s : string) : option (list byte) :=
  match s with
  | String a (String b rest) =>
      match hex_value a, hex_value b with
      | Some x, Some y =>
          match Byte.of_N (16 * x + y) with
          | Some v =>
              match rest with
              | EmptyString => Some [v]
              | String sep rest' =>
                  if Ascii.eqb sep " " then option_map (cons v) (hex_decode rest')
                  else None
              end
          | None => None
          end
      | _, _ => None
      end
  | _ => None
  end.

Definition preview_char (c : ascii) : bool :=
  Ascii.eqb c " " || match hex_value c with Some _ => true | None => false end.

Fixpoint string_forallb (p : ascii -> bool) (s : string) : bool :=
  match s with
  | EmptyString => true
  | String c rest => p c && string_forallb p rest
  end.

(** ** Further vocabulary *)

(** [signal_handler]: [running = False]. *)
Definition signal_handler (w : world) : world := with_running false w.

(** A signal delivered to a process. *)
Definition signalled (m : machine) : machine := with_ext signal_handler m.

(** The clock moves on by at least the 5 ms of a poll during each sleep. *)
Definition clock_advances (env : nat -> world -> world) : Prop :=
  forall k w, (now w + (5 # 1000) <= now (env k w))%Q.

(** A peer that never touches the segment, with a clock that moves on by
    the 5 ms of each sleep. *)
Definition ticking_creator : nat -> world -> world :=
  fun _ w => World (shm w) (buffers w) (running w) (now w + (5 # 1000)).

(** A peer that posts a DataReady command whenever the Acceptor sleeps. *)
Definition posting_creator : nat -> world -> world :=
  fun _ w => with_shm (with_c_to_a_command 1) w.

(** A processing block that answers with its input. *)
Definition echo_processing : list byte -> option (list byte) :=
  fun input_bytes => Some input_bytes.

(** What the polling loop may do: sleep, read and process, respond with
    status 1 or -1, and clear the command. *)
Definition polling_event (e : event) : bool :=
  match e with
  | EvSleep _ | EvReadC2A _ _ | EvProcess _ | EvWriteA2C _ _ | EvFlush
  | EvSetA2CDataLen _ | EvStop => true
  | EvSetA2CStatus s => (s =? 1) || (s =? -1)
  | EvSetC2ACommand c => c =? 0
  | EvShmOpen _ _ | EvCloseMmap | EvCloseFd _ => false
  end.

(** The globals fixed by start-up. *)
Definition same_globals (m m' : machine) : Prop :=
  shm_fd m' = shm_fd m /\ mmap_obj m' = mmap_obj m /\
  ACTUAL_C2A_BUFFER_SIZE m' = ACTUAL_C2A_BUFFER_SIZE m /\
  ACTUAL_A2C_BUFFER_SIZE m' = ACTUAL_A2C_BUFFER_SIZE m.

(** A peer that takes the previous response during the Acceptor's third
    poll; the clock advances by the 5 ms of each sleep. *)
Definition slow_reader : nat -> world -> world :=
  fun k w =>
    World (if (2 <=? k)%nat then with_a_to_c_status 0 (shm w) else shm w)
          (buffers w) (running w) (Z.of_nat (S k) * 5 # 1000).


(** The mapping cannot be used in place and a copy of the record is taken. *)
Definition copied_record : os_calls :=
  OsCalls (fun _ => 3) false false true false true false.

(** A freshly created segment of [cap] bytes after the control block whose
    header declares the two buffer sizes. *)
Definition segment (c2a a2c : N) (cap : nat) : world :=
  World (SHM 0 0 0 0 c2a a2c) (repeat "000"%byte cap) true 0.

(** ** Busy waiting *)
Section Waiting.

Variable cb : N.
Variable env : nat -> world -> world.

Lemma events_record e m : events (record e m) = events m ++ [e].
Proof. unfold events, record; simpl. now rewrite map_app. Qed.

Lemma events_sleep d m : events (sleep env d m) = events m ++ [EvSleep d].
Proof. unfold sleep. now rewrite events_record. Qed.

Lemma sleeps_S k m : sleeps env (S k) m = sleep env (5 # 1000) (sleeps env k m).
Proof.
  revert m; induction k as [|k IH]; intro m; [reflexivity|].
  change (sleeps env (S (S k)) m) with (sleeps env (S k) (sleep env (5 # 1000) m)).
  now rewrite IH.
Qed.

Lemma sleeps_events k m :
  events (sleeps env k m) = events m ++ repeat (EvSleep (5 # 1000)) k.
Proof.
  revert m; induction k as [|k IH]; intro m; simpl.
  - now rewrite app_nil_r.
  - rewrite IH, events_sleep, <- app_assoc. reflexivity.
Qed.

Lemma sleeps_globals k m :
  shm_fd (sleeps env k m) = shm_fd m /\ mmap_obj (sleeps env k m) = mmap_obj m /\
  ACTUAL_C2A_BUFFER_SIZE (sleeps env k m) = ACTUAL_C2A_BUFFER_SIZE m /\
  ACTUAL_A2C_BUFFER_SIZE (sleeps env k m) = ACTUAL_A2C_BUFFER_SIZE m /\
  shm_struct (sleeps env k m) = shm_struct m.
Proof.
  revert m; induction k as [|k IH]; intro m; simpl; [tauto|].
  destruct (IH (sleep env (5 # 1000) m)) as (a & b & c & d & e).
  rewrite a, b, c, d, e. simpl. tauto.
Qed.

Lemma busy_or_released m : busy m \/ released m.
Proof.
  unfold busy, released.
  destruct (Z.eq_dec (a_to_c_status (hdr m)) 0); destruct (running (ext m)); auto.
Qed.

Lemma busy_not_released m : busy m -> released m -> False.
Proof. unfold busy, released. intros [H1 H2] [H|H]; congruence. Qed.

Lemma wait_while_busy_step fuel m :
  busy m ->
  wait_while_busy env (S fuel) m = wait_while_busy env fuel (sleep env (5 # 1000) m).
Proof.
  intros [Hs Hr]. simpl. apply Z.eqb_neq in Hs. now rewrite Hs, Hr.
Qed.

Lemma wait_while_busy_released fuel m :
  released m -> wait_while_busy env fuel m = Done m tt.
Proof.
  intros H. destruct fuel; simpl;
    (destruct H as [H|H]; [rewrite H; reflexivity | rewrite H, andb_false_r; reflexivity]).
Qed.

(** The unbounded wait either leaves after [k] polls, at the first state
    that releases it, or is still turning when the fuel is spent. *)
Lemma wait_while_busy_spec fuel m :
  exists k, (k <= fuel)%nat /\
    (forall j, (j < k)%nat -> busy (sleeps env j m)) /\
    ((wait_while_busy env fuel m = Done (sleeps env k m) tt /\ released (sleeps env k m)) \/
     (wait_while_busy env fuel m = Spinning (sleeps env k m) /\ k = fuel /\
      busy (sleeps env k m))).
Proof.
  revert m; induction fuel as [|fuel IH]; intro m.
  - exists O. split; [lia|]. split; [intros j Hj; lia|].
    destruct (busy_or_released m) as [Hb|Hr].
    + right. destruct Hb as [Hs Hr]. simpl.
      apply Z.eqb_neq in Hs. rewrite Hs, Hr. simpl.
      repeat split; auto. now apply Z.eqb_neq.
    + left. split; [now apply wait_while_busy_released | exact Hr].
  - destruct (busy_or_released m) as [Hb|Hr].
    + rewrite (wait_while_busy_step fuel m Hb).
      destruct (IH (sleep env (5 # 1000) m)) as (k & Hk & Hall & Hres).
      exists (S k). split; [lia|]. split.
      * intros [|j] Hj; [exact Hb | apply Hall; lia].
      * destruct Hres as [[E R]|[E [K B]]]; [left | right]; simpl; auto.
    + exists O. split; [lia|]. split; [intros j Hj; lia|].
      left. split; [now apply wait_while_busy_released | exact Hr].
Qed.

(** Once some poll finds the wait released, enough fuel ends it. *)
Lemma wait_while_busy_terminates k :
  forall m fuel, released (sleeps env k m) -> (k <= fuel)%nat ->
    exists j, (j <= k)%nat /\ wait_while_busy env fuel m = Done (sleeps env j m) tt /\
              released (sleeps env j m).
Proof.
  induction k as [|k IH]; intros m fuel Hrel Hle.
  - exists O. simpl in *. split; [lia|]. split; [now apply wait_while_busy_released | exact Hrel].
  - destruct (busy_or_released m) as [Hb|Hr].
    + destruct fuel as [|fuel]; [lia|].
      rewrite (wait_while_busy_step fuel m Hb).
      destruct (IH (sleep env (5 # 1000) m) fuel Hrel ltac:(lia)) as (j & Hj & E & R).
      exists (S j). split; [lia|]. simpl. auto.
    + exists O. split; [lia|]. split; [now apply wait_while_busy_released | exact Hr].
Qed.

(** The wait with a deadline, likewise. *)
Lemma wait_for_ack_spec fuel limit start m :
  exists k, (k <= fuel)%nat /\
    ((wait_for_ack env fuel limit start m = Done (sleeps env k m) Ready /\
      a_to_c_status (hdr (sleeps env k m)) = 0) \/
     (wait_for_ack env fuel limit start m = Done (sleeps env k m) Stopped /\
      a_to_c_status (hdr (sleeps env k m)) <> 0) \/
     (wait_for_ack env fuel limit start m = Done (sleeps env k m) TimedOut /\
      a_to_c_status (hdr (sleeps env k m)) <> 0) \/
     (wait_for_ack env fuel limit start m = Spinning (sleeps env k m) /\ k = fuel /\
      busy (sleeps env k m))).
Proof.
  revert m; induction fuel as [|fuel IH]; intro m.
  - exists O. split; [lia|]. simpl.
    destruct (Z.eqb_spec (a_to_c_status (hdr m)) 0) as [E|E]; [left; auto|].
    destruct (running (ext m)) eqn:R; simpl; [|right; left; auto].
    destruct (Qle_bool (now (ext m) - start) limit); simpl;
      [right; right; right | right; right; left]; repeat split; auto.
  - simpl.
    destruct (Z.eqb_spec (a_to_c_status (hdr m)) 0) as [E|E];
      [exists O; split; [lia|]; left; auto|].
    destruct (running (ext m)) eqn:R; simpl;
      [|exists O; split; [lia|]; right; left; auto].
    destruct (Qle_bool (now (ext m) - start) limit); simpl;
      [|exists O; split; [lia|]; right; right; left; auto].
    destruct (IH (sleep env (5 # 1000) m)) as (k & Hk & Hres).
    exists (S k). split; [lia|]. simpl.
    destruct Hres as [[Eq S0]|[[Eq S0]|[[Eq S0]|[Eq [K B]]]]]; rewrite Eq; auto.
    right; right; right. split; [reflexivity|]. split; [lia | exact B].
Qed.

(** It ends as soon as some poll finds the wait released, whatever the
    clock shows. *)
Lemma wait_for_ack_terminates k limit start :
  forall m fuel, released (sleeps env k m) -> (k <= fuel)%nat ->
    exists j x, (j <= k)%nat /\ wait_for_ack env fuel limit start m = Done (sleeps env j m) x.
Proof.
  induction k as [|k IH]; intros m fuel Hrel Hle.
  - exists O. simpl in Hrel.
    destruct fuel; simpl;
      (destruct (Z.eqb_spec (a_to_c_status (hdr m)) 0) as [E|E]; [exists Ready; auto|];
       destruct Hrel as [H|H]; [congruence|]; rewrite H; simpl; exists Stopped; auto).
  - destruct fuel as [|fuel]; [lia|]. simpl.
    destruct (Z.eqb_spec (a_to_c_status (hdr m)) 0) as [E|E];
      [exists O, Ready; split; [lia|reflexivity]|].
    destruct (running (ext m)) eqn:R; simpl;
      [|exists O, Stopped; split; [lia|reflexivity]].
    destruct (Qle_bool (now (ext m) - start) limit); simpl;
      [|exists O, TimedOut; split; [lia|reflexivity]].
    destruct (IH (sleep env (5 # 1000) m) fuel Hrel ltac:(lia)) as (j & x & Hj & Eq).
    exists (S j), x. split; [lia|exact Eq].
Qed.

End Waiting.

(** ** The respond operation, case by case *)
Section Responding.

Variable cb : N.
Variable env : nat -> world -> world.

Lemma hdr_upd_hdr f m : hdr (upd_hdr f m) = f (hdr m).
Proof.
  unfold hdr, upd_hdr.
  destruct (shm_struct m) eqn:E; simpl; try rewrite E; reflexivity.
Qed.

Lemma hdr_record e m : hdr (record e m) = hdr m.
Proof. reflexivity. Qed.

Lemma log_record e m : log (record e m) = log m ++ [(e, hdr m)].
Proof. reflexivity. Qed.

Lemma log_upd_hdr f m : log (upd_hdr f m) = log m.
Proof. unfold upd_hdr. destruct (shm_struct m); reflexivity. Qed.

Lemma hdr_set_a_to_c_data_len n m :
  hdr (set_a_to_c_data_len n m) = with_a_to_c_data_len n (hdr m).
Proof. unfold set_a_to_c_data_len. now rewrite hdr_record, hdr_upd_hdr. Qed.

Lemma hdr_set_a_to_c_status s m :
  hdr (set_a_to_c_status s m) = with_a_to_c_status s (hdr m).
Proof. unfold set_a_to_c_status. now rewrite hdr_record, hdr_upd_hdr. Qed.

Lemma hdr_set_c_to_a_command c m :
  hdr (set_c_to_a_command c m) = with_c_to_a_command c (hdr m).
Proof. unfold set_c_to_a_command. now rewrite hdr_record, hdr_upd_hdr. Qed.

Lemma log_set_a_to_c_data_len n m :
  log (set_a_to_c_data_len n m) =
  log m ++ [(EvSetA2CDataLen n, with_a_to_c_data_len n (hdr m))].
Proof.
  unfold set_a_to_c_data_len. now rewrite log_record, hdr_upd_hdr, log_upd_hdr.
Qed.

Lemma log_set_a_to_c_status s m :
  log (set_a_to_c_status s m) =
  log m ++ [(EvSetA2CStatus s, with_a_to_c_status s (hdr m))].
Proof.
  unfold set_a_to_c_status. now rewrite log_record, hdr_upd_hdr, log_upd_hdr.
Qed.

Lemma log_set_c_to_a_command c m :
  log (set_c_to_a_command c m) =
  log m ++ [(EvSetC2ACommand c, with_c_to_a_command c (hdr m))].
Proof.
  unfold set_c_to_a_command. now rewrite log_record, hdr_upd_hdr, log_upd_hdr.
Qed.

(** A write inside the mapping succeeds, touches the bytes only and is
    logged. *)
Lemma mmap_write_inside offset data m :
  (offset + N.of_nat (List.length data) <= mmap_size cb m)%N ->
  exists m2, mmap_write cb offset data m = Some m2 /\
             hdr m2 = hdr m /\ log m2 = log m ++ [(EvWriteA2C offset data, hdr m)].
Proof.
  intro H. unfold mmap_write. apply N.leb_le in H. rewrite H.
  eexists; split; [reflexivity|]. split.
  - rewrite hdr_record. unfold hdr. simpl. destruct (shm_struct m); reflexivity.
  - rewrite log_record. simpl.
    unfold hdr; simpl. destruct (shm_struct m); reflexivity.
Qed.

Lemma mmap_write_some offset data m m2 :
  mmap_write cb offset data m = Some m2 ->
  (offset + N.of_nat (List.length data) <= mmap_size cb m)%N.
Proof.
  unfold mmap_write.
  destruct (N.leb_spec (offset + N.of_nat (List.length data)) (mmap_size cb m));
    [auto | discriminate].
Qed.

Lemma send_data_to_creator_outcome fuel data m :
  send_outcome cb env fuel data m (send_data_to_creator cb env fuel data m).
Proof.
  unfold send_data_to_creator.
  destruct (shm_struct m) eqn:Hs; cbn [orb negb];
    try (apply SendNotInitialised; now left).
  all: destruct (mmap_obj m) eqn:Hm; cbn [orb negb];
    try (apply SendNotInitialised; now right).
  all: destruct (N.ltb_spec (ACTUAL_A2C_BUFFER_SIZE m) (N.of_nat (List.length data)))
         as [Hbig|Hfit].
  all: try (destruct (wait_while_busy_spec env fuel m) as (k & Hk & _ & [[E R]|[E [K B]]]);
            rewrite E;
            [ destruct (running (ext (sleeps env k m))) eqn:Hr; cbn [negb];
              [ destruct R as [R|R]; [|congruence];
                apply SendTooLarge; assumption
              | apply SendStopped; assumption ]
            | subst k; apply SendSpinning; assumption ]).
  all: destruct (wait_for_ack_spec env fuel 5 (now (ext m)) m)
         as (k & Hk & [[E S0]|[[E S0]|[[E S0]|[E [K B]]]]]); rewrite E;
    try (apply SendStopped; assumption);
    try (apply SendTimedOut; assumption);
    try (subst k; apply SendSpinning; assumption).
  all: destruct (N.ltb_spec (mmap_size cb (sleeps env k m))
                   (cb
                    + ACTUAL_C2A_BUFFER_SIZE m
                    + N.of_nat (List.length data))) as [Hout|Hin];
    try (apply SendOutOfBounds; assumption).
  all: destruct (mmap_write_inside _ data _ Hin) as (m2 & Ew & _ & _);
    rewrite Ew; apply (SendPublished cb env fuel data m k m2); assumption.
Qed.

(** What a publication adds to the log, with the control block after each
    of the four actions. *)
Lemma publish_log offset data m1 m2 :
  mmap_write cb offset data m1 = Some m2 ->
  let n := N.of_nat (List.length data) in
  log (publish n m2) =
    log m1 ++ [ (EvWriteA2C offset data, hdr m1);
                (EvFlush, hdr m1);
                (EvSetA2CDataLen n, with_a_to_c_data_len n (hdr m1));
                (EvSetA2CStatus 1,
                   with_a_to_c_status 1 (with_a_to_c_data_len n (hdr m1))) ]
  /\ hdr (publish n m2) = with_a_to_c_status 1 (with_a_to_c_data_len n (hdr m1)).
Proof.
  intros Hw n.
  destruct (mmap_write_inside offset data m1 (mmap_write_some _ _ _ _ Hw))
    as (m2' & Ew & Hh & Hl).
  rewrite Hw in Ew. injection Ew as <-.
  unfold publish. split.
  - rewrite log_set_a_to_c_status, hdr_set_a_to_c_data_len,
      log_set_a_to_c_data_len, hdr_record, log_record, Hh, Hl.
    rewrite <- !app_assoc. reflexivity.
  - now rewrite hdr_set_a_to_c_status, hdr_set_a_to_c_data_len, hdr_record, Hh.
Qed.

Lemma signal_error_log m :
  log (signal_error m) =
    log m ++ [ (EvSetA2CDataLen 0, with_a_to_c_data_len 0 (hdr m));
               (EvSetA2CStatus (-1),
                  with_a_to_c_status (-1) (with_a_to_c_data_len 0 (hdr m))) ]
  /\ hdr (signal_error m) = with_a_to_c_status (-1) (with_a_to_c_data_len 0 (hdr m)).
Proof.
  unfold signal_error. split.
  - rewrite log_set_a_to_c_status, hdr_set_a_to_c_data_len, log_set_a_to_c_data_len.
    rewrite <- app_assoc. reflexivity.
  - now rewrite hdr_set_a_to_c_status, hdr_set_a_to_c_data_len.
Qed.

End Responding.

(** ** Events of one message exchange *)
Section Exchange.

Variable cb : N.
Variable env : nat -> world -> world.
Variable example_processing : list byte -> option (list byte).

Lemma forallb_repeat {A} (p : A -> bool) x k :
  p x = true -> forallb p (repeat x k) = true.
Proof. intro H. induction k; simpl; [reflexivity | now rewrite H]. Qed.

Lemma events_publish offset data m1 m2 :
  mmap_write cb offset data m1 = Some m2 ->
  events (publish (N.of_nat (List.length data)) m2) =
    events m1 ++ [EvWriteA2C offset data; EvFlush;
                  EvSetA2CDataLen (N.of_nat (List.length data)); EvSetA2CStatus 1].
Proof.
  intro H. destruct (publish_log cb offset data m1 m2 H) as [L _].
  unfold events. rewrite L, map_app. reflexivity.
Qed.

Lemma events_signal_error m :
  events (signal_error m) = events m ++ [EvSetA2CDataLen 0; EvSetA2CStatus (-1)].
Proof.
  destruct (signal_error_log m) as [L _].
  unfold events. rewrite L, map_app. reflexivity.
Qed.

Lemma events_set_c_to_a_command c m :
  events (set_c_to_a_command c m) = events m ++ [EvSetC2ACommand c].
Proof. unfold events. rewrite log_set_c_to_a_command, map_app. reflexivity. Qed.

(** Whatever way the respond operation goes, it only sleeps, writes the A2C
    buffer and sets the two A2C fields. *)
Lemma send_data_to_creator_events fuel data m :
  exists sent,
    events (state_of (send_data_to_creator cb env fuel data m))
      = events m ++ sent
    /\ forallb respond_event sent = true.
Proof.
  destruct (send_data_to_creator_outcome cb env fuel data m)
    as [H | B | k Hk | k Hk Hf Hs | k Hk Hf Hs Hb | k Hk Hb Hs Hr | k m2 Hk Hf Hs Hb Hw];
    cbn [state_of].
  - exists []. now rewrite app_nil_r.
  - exists (repeat (EvSleep (5 # 1000)) fuel). split;
      [apply sleeps_events | now apply forallb_repeat].
  - exists (repeat (EvSleep (5 # 1000)) k). split;
      [apply sleeps_events | now apply forallb_repeat].
  - exists (repeat (EvSleep (5 # 1000)) k). split;
      [apply sleeps_events | now apply forallb_repeat].
  - exists (repeat (EvSleep (5 # 1000)) k). split;
      [apply sleeps_events | now apply forallb_repeat].
  - exists (repeat (EvSleep (5 # 1000)) k ++ [EvSetA2CDataLen 0; EvSetA2CStatus (-1)]).
    split.
    + now rewrite events_signal_error, sleeps_events, app_assoc.
    + rewrite forallb_app, forallb_repeat; reflexivity.
  - exists (repeat (EvSleep (5 # 1000)) k ++
            [EvWriteA2C (cb + ACTUAL_C2A_BUFFER_SIZE m) data;
             EvFlush; EvSetA2CDataLen (N.of_nat (List.length data)); EvSetA2CStatus 1]).
    split.
    + now rewrite (events_publish _ _ _ _ Hw), sleeps_events, app_assoc.
    + rewrite forallb_app, forallb_repeat; reflexivity.
Qed.

(** The respond operation cannot return before the peer releases the
    status or a shutdown is asked for, unless the state is not initialised;
    when it is released after [k] polls, fuel [k] is enough. *)
Lemma send_data_to_creator_returns k fuel data m :
  released (sleeps env k m) -> (k <= fuel)%nat ->
  exists m' ok, send_data_to_creator cb env fuel data m = Done m' ok.
Proof.
  intros Hrel Hle. unfold send_data_to_creator.
  destruct (_ || _); [eauto|].
  destruct (_ <? _)%N.
  - destruct (wait_while_busy_terminates env k m fuel Hrel Hle) as (j & _ & E & _).
    rewrite E. destruct (negb _); eauto.
  - destruct (wait_for_ack_terminates env k 5 (now (ext m)) m fuel Hrel Hle)
      as (j & x & _ & E).
    rewrite E. destruct x; eauto.
    match goal with |- context [(?a <? ?b)%N] => destruct (N.ltb_spec a b) as [Hout|Hin] end;
      eauto.
    destruct (mmap_write_inside cb _ data _ Hin) as (m2 & Ew & _).
    rewrite Ew. eauto.
Qed.

End Exchange.

(** ** Properties *)

(** *** The size of the control block *)

(** The fields without the padding and the padding itself always add up to
    128 bytes: this is what the length of [_padding1] is computed for. *)
Lemma field_sizes_add_up (w : Z) :
  fold_right Z.add 0
    (map (fun f => Layout.size_of (snd f)) (Layout.SharedIPCBidirectional_fields w))
  = 128.
Proof.
  cbv [Layout.SharedIPCBidirectional_fields map fold_right snd Layout.size_of
       Layout.c_int32 Layout.c_size_t Layout.c_char_array].
  lia.
Qed.

(** With a 4-byte [size_t] no field needs alignment padding. *)
Lemma control_block_size_ilp32 : Layout.SHM_CONTROL_BLOCK_SIZE 4 = 128.
Proof. reflexivity. Qed.

(** C1: with an 8-byte [size_t] (LP64, the platforms with POSIX shared
    memory the script runs on) [ctypes.sizeof(SharedIPCBidirectional)] is 136
    and not 128: the two [c_int32] fields are each followed by 4 bytes of
    alignment padding that the length of [_padding1] does not account for. *)
Theorem control_block_size_lp64 :
  Layout.SHM_CONTROL_BLOCK_SIZE 8 = 136 /\
  Layout.field_offsets 8 = [0; 8; 16; 24; 32; 40; 48] /\
  Layout.SHM_CONTROL_BLOCK_SIZE 8 <> 128.
Proof. repeat split. discriminate. Qed.

(** *** The respond operation *)

(** The stalled peer leaves the control block and the [running] flag alone. *)
Lemma stalled_creator_sleep cb d m :
  hdr (sleep stalled_creator d m) = hdr m /\
  running (ext (sleep stalled_creator d m)) = running (ext m) /\
  ticks (sleep stalled_creator d m) = S (ticks m) /\
  now (ext (sleep stalled_creator d m)) = (Z.of_nat (S (ticks m)) * 5 # 1000) /\
  mmap_size cb (sleep stalled_creator d m) = mmap_size cb m.
Proof.
  split; [reflexivity|]. split; [reflexivity|]. split; [reflexivity|].
  split; [reflexivity|]. unfold mmap_size. f_equal.
Qed.

Lemma stalled_creator_keeps_header cb k m :
  hdr (sleeps stalled_creator k m) = hdr m /\
  running (ext (sleeps stalled_creator k m)) = running (ext m) /\
  ticks (sleeps stalled_creator k m) = (ticks m + k)%nat /\
  (0 < k -> now (ext (sleeps stalled_creator k m))
            = (Z.of_nat (ticks m + k) * 5 # 1000))%nat /\
  mmap_size cb (sleeps stalled_creator k m) = mmap_size cb m.
Proof.
  induction k as [|k IH].
  - simpl. repeat split; auto; lia.
  - rewrite sleeps_S. destruct IH as (H1 & H2 & H4 & H5 & H6).
    destruct (stalled_creator_sleep cb (5 # 1000) (sleeps stalled_creator k m))
      as (S1 & S2 & S4 & S5 & S6).
    rewrite S1, S2, S4, S5, S6, H1, H2, H4, H6.
    repeat split; try lia.
    intros _. now replace (S (ticks m + k)) with (ticks m + S k)%nat by lia.
Qed.

(** When the status stays taken, the respond operation for a response
    larger than the A2C buffer is still polling after any number of
    rounds. *)
Lemma oversize_response_keeps_polling cb env fuel data m :
  shm_struct m <> NoStruct -> mmap_obj m = true ->
  (ACTUAL_A2C_BUFFER_SIZE m < N.of_nat (List.length data))%N ->
  (forall k, busy (sleeps env k m)) ->
  send_data_to_creator cb env fuel data m = Spinning (sleeps env fuel m).
Proof.
  intros Hs Hm Hbig Hbusy. unfold send_data_to_creator.
  rewrite Hm. cbn [negb].
  replace (match shm_struct m with NoStruct => true | _ => false end) with false
    by (destruct (shm_struct m); [congruence | reflexivity | reflexivity]).
  cbn [orb]. apply N.ltb_lt in Hbig. rewrite Hbig.
  destruct (wait_while_busy_spec env fuel m) as (k & _ & _ & [[E R]|[E [K _]]]).
  - exfalso. exact (busy_not_released _ (Hbusy k) R).
  - rewrite E. now subst k.
Qed.

(** C3: the response of the example processing (400 bytes) does not fit an
    A2C buffer of 64 bytes; when the Creator has not taken the previous
    response ([a_to_c_status] stays 1) and no signal arrives, the respond
    operation is still in its wait after any number of 5 ms polls, however
    far the clock is past 5 s, and the error signal is never written. *)
Theorem oversize_respond_has_no_deadline :
  forall fuel,
    let m := attached (SHM 1 10 1 29 64 64) 128 in
    let r := send_data_to_creator lp64_block stalled_creator fuel gradient_image m in
    r = Spinning (sleeps stalled_creator fuel m) /\
    a_to_c_status (hdr (state_of r)) = 1 /\
    a_to_c_data_len (hdr (state_of r)) = 29%N /\
    events (state_of r) = repeat (EvSleep (5 # 1000)) fuel /\
    now (ext (state_of r)) == inject_Z (Z.of_nat fuel) * (5 # 1000).
Proof.
  intros fuel m r.
  assert (E : r = Spinning (sleeps stalled_creator fuel m)).
  { apply oversize_response_keeps_polling.
    - discriminate.
    - reflexivity.
    - vm_compute. reflexivity.
    - intro k. destruct (stalled_creator_keeps_header lp64_block k m) as (H1 & H2 & _).
      unfold busy. rewrite H1, H2. split; [discriminate | reflexivity]. }
  rewrite E. cbn [state_of].
  destruct (stalled_creator_keeps_header lp64_block fuel m) as (H1 & _ & _ & H5 & _).
  rewrite H1, sleeps_events. repeat split.
  destruct fuel as [|fuel]; [reflexivity|].
  rewrite H5 by lia. cbn [m attached ticks Nat.add].
  unfold Qeq, Qmult, inject_Z. cbn [Qnum Qden]. lia.
Qed.

(** The sibling wait of a response that fits gives up after 5 s, with the
    same peer: 1001 polls of 5 ms. *)
Example fitting_respond_times_out :
  send_data_to_creator lp64_block stalled_creator 1001 msg_too_large
    (attached (SHM 1 10 1 29 64 64) 128)
  = Done (sleeps stalled_creator 1001 (attached (SHM 1 10 1 29 64 64) 128)) false.
Proof. vm_compute. reflexivity. Qed.



Lemma existsb_repeat_false {A} (p : A -> bool) x k :
  p x = false -> existsb p (repeat x k) = false.
Proof. intro H. induction k; simpl; [reflexivity | now rewrite H]. Qed.

(** A write that passed the bounds check replaces bytes of the mapping and
    leaves its size alone. *)
Lemma mmap_write_keeps_size cb c2a data m m2 :
  mmap_write cb (cb + c2a) data m = Some m2 ->
  mmap_size cb m2 = mmap_size cb m.
Proof.
  intro H. pose proof (mmap_write_some cb _ _ _ _ H) as Hb.
  unfold mmap_write in H. apply N.leb_le in Hb. rewrite Hb in H.
  apply (f_equal (fun o => match o with Some x => x | None => m end)) in H.
  cbv beta iota in H. subst m2. apply N.leb_le in Hb.
  unfold mmap_size in *. cbn [record with_log with_ext ext with_buffers buffers].
  f_equal. f_equal.
  rewrite !length_app, length_firstn, length_skipn.
  replace (cb + c2a - cb)%N with c2a by lia.
  lia.
Qed.

Lemma read_defined_sizes_proceeds os m m1 :
  read_defined_sizes os m = Proceed m1 ->
  ACTUAL_C2A_BUFFER_SIZE m1 = defined_c2a_buffer_size (hdr m) /\
  ACTUAL_A2C_BUFFER_SIZE m1 = defined_a2c_buffer_size (hdr m) /\
  (0 < ACTUAL_C2A_BUFFER_SIZE m1)%N /\ (0 < ACTUAL_A2C_BUFFER_SIZE m1)%N.
Proof.
  unfold read_defined_sizes, close_and_exit.
  cbn [with_actual_sizes ACTUAL_C2A_BUFFER_SIZE ACTUAL_A2C_BUFFER_SIZE].
  destruct (N.leb_spec (defined_c2a_buffer_size (hdr m)) 0);
    destruct (N.leb_spec (defined_a2c_buffer_size (hdr m)) 0);
    cbn [orb]; try (destruct (_ && _); discriminate).
  intro E. injection E as <-. cbn. repeat split; assumption.
Qed.

(** C9: the respond operation writes at one place only, the offset
    [SHM_CONTROL_BLOCK_SIZE + ACTUAL_C2A_BUFFER_SIZE], where the second term
    is the [defined_c2a_buffer_size] read at start-up.  Either it returns
    success, and then the write was inside the mapping as it was when the
    status was found 0; or it does not, and then no byte was written.  When
    the write would pass the end of the mapping the operation returns
    failure at once, with the state untouched. *)
Theorem a2c_write_is_bounds_checked cb env fuel data m :
  let r := send_data_to_creator cb env fuel data m in
  let a2c_buffer_offset := (cb + ACTUAL_C2A_BUFFER_SIZE m)%N in
  let n := N.of_nat (List.length data) in
  ((exists k m',
       r = Done m' true /\
       (a2c_buffer_offset + n <= mmap_size cb (sleeps env k m))%N /\
       events m' = events (sleeps env k m) ++
                   [EvWriteA2C a2c_buffer_offset data; EvFlush;
                    EvSetA2CDataLen n; EvSetA2CStatus 1])
   \/
   ((forall m', r <> Done m' true) /\
    exists sent, events (state_of r) = events m ++ sent /\
                 existsb is_write sent = false))
  /\
  (shm_struct m <> NoStruct -> mmap_obj m = true ->
   (n <= ACTUAL_A2C_BUFFER_SIZE m)%N -> a_to_c_status (hdr m) = 0 ->
   (mmap_size cb m < a2c_buffer_offset + n)%N ->
   r = Done m false)
  /\
  (forall os m0, read_defined_sizes os m0 = Proceed m ->
                 ACTUAL_C2A_BUFFER_SIZE m = defined_c2a_buffer_size (hdr m0)).
Proof.
  cbv zeta. split; [|split].
  - destruct (send_data_to_creator_outcome cb env fuel data m)
      as [H | B | k Hk | k Hk Hf Hs | k Hk Hf Hs Hb | k Hk Hb Hs Hr | k m2 Hk Hf Hs Hb Hw];
      cbn [state_of].
    + right. split; [congruence|]. exists []. now rewrite app_nil_r.
    + right. split; [congruence|]. exists (repeat (EvSleep (5 # 1000)) fuel).
      split; [apply sleeps_events | now apply existsb_repeat_false].
    + right. split; [congruence|]. exists (repeat (EvSleep (5 # 1000)) k).
      split; [apply sleeps_events | now apply existsb_repeat_false].
    + right. split; [congruence|]. exists (repeat (EvSleep (5 # 1000)) k).
      split; [apply sleeps_events | now apply existsb_repeat_false].
    + right. split; [congruence|]. exists (repeat (EvSleep (5 # 1000)) k).
      split; [apply sleeps_events | now apply existsb_repeat_false].
    + right. split; [congruence|].
      exists (repeat (EvSleep (5 # 1000)) k ++ [EvSetA2CDataLen 0; EvSetA2CStatus (-1)]).
      split.
      * now rewrite events_signal_error, sleeps_events, app_assoc.
      * rewrite existsb_app, existsb_repeat_false; reflexivity.
    + left. exists k, (publish (N.of_nat (List.length data)) m2).
      split; [reflexivity|]. split; [exact Hb|].
      apply (events_publish cb _ _ _ _ Hw).
  - intros Hs Hm Hfit H0 Hout. unfold send_data_to_creator.
    rewrite Hm. cbn [negb].
    replace (match shm_struct m with NoStruct => true | _ => false end) with false
      by (destruct (shm_struct m); [congruence | reflexivity | reflexivity]).
    cbn [orb]. apply N.ltb_ge in Hfit. rewrite Hfit.
    destruct fuel; cbn [wait_for_ack];
      apply Z.eqb_eq in H0; rewrite H0; apply N.ltb_lt in Hout; now rewrite Hout.
  - intros os m0 H. now destruct (read_defined_sizes_proceeds os m0 m H).
Qed.

Lemma a2c_write_is_bounds_checked_witness :
  let m := attached (SHM 1 0 0 0 64 64) 80 in
  (mmap_size lp64_block m < lp64_block + ACTUAL_C2A_BUFFER_SIZE m + 34)%N /\
  send_data_to_creator lp64_block idle_creator 3 msg_empty_ack m = Done m false.
Proof.
  intro m. split; [vm_compute; reflexivity|].
  apply (a2c_write_is_bounds_checked lp64_block idle_creator 3 msg_empty_ack m).
  - discriminate.
  - reflexivity.
  - vm_compute. discriminate.
  - reflexivity.
  - vm_compute. reflexivity.
Defined.

(** *** One DataReady command *)
Section DataReady.

Variable cb : N.
Variable env : nat -> world -> world.
Variable example_processing : list byte -> option (list byte).

Lemma data_ready_after_process fuel m m1 payload :
  process_data_from_creator cb example_processing (c_to_a_data_len (hdr m)) m
    = (m1, Some payload) ->
  data_ready cb env example_processing fuel m
    = acknowledge (send_data_to_creator cb env fuel payload m1).
Proof. intro H. unfold data_ready. rewrite H. reflexivity. Qed.

(** Processing returns a payload in every case; it changes nothing but the
    log, where it leaves at most one read of the C2A buffer and one call of
    the processing block. *)
Lemma process_data_from_creator_total data_len m :
  exists inbound payload,
    process_data_from_creator cb example_processing data_len m
      = (with_log (log m ++ inbound) m, Some payload)
    /\ forallb inbound_event (map fst inbound) = true.
Proof.
  unfold process_data_from_creator, get_buffer_view.
  destruct (0 <? data_len)%N.
  - destruct (ACTUAL_C2A_BUFFER_SIZE m <? data_len)%N.
    + exists [], msg_too_large. rewrite app_nil_r. destruct m; auto.
    + destruct (mmap_obj m && _).
      * destruct (example_processing _);
          eexists [_; _], _; unfold record; cbn [log with_log hdr shm_struct ext];
          rewrite <- app_assoc; split; reflexivity.
      * exists [], msg_no_view. rewrite app_nil_r. destruct m; auto.
  - exists [], msg_empty_ack. rewrite app_nil_r. destruct m; auto.
Qed.

Lemma process_oversize m :
  (ACTUAL_C2A_BUFFER_SIZE m < c_to_a_data_len (hdr m))%N ->
  process_data_from_creator cb example_processing (c_to_a_data_len (hdr m)) m
    = (m, Some msg_too_large).
Proof.
  intro H. unfold process_data_from_creator.
  replace (0 <? c_to_a_data_len (hdr m))%N with true by (symmetry; apply N.ltb_lt; lia).
  apply N.ltb_lt in H. now rewrite H.
Qed.

Lemma process_empty m :
  c_to_a_data_len (hdr m) = 0%N ->
  process_data_from_creator cb example_processing (c_to_a_data_len (hdr m)) m
    = (m, Some msg_empty_ack).
Proof. intro H. unfold process_data_from_creator. now rewrite H. Qed.

(** The log plays no part in what the polls observe. *)
Lemma sleeps_with_log k : forall l m,
  exists l', sleeps env k (with_log l m) = with_log l' (sleeps env k m).
Proof.
  induction k as [|k IH]; intros l m.
  - exists l. reflexivity.
  - cbn [sleeps].
    destruct (IH (l ++ [(EvSleep (5 # 1000), hdr (sleep env (5 # 1000) m))])
                 (sleep env (5 # 1000) m)) as (l' & E).
    exists l'. rewrite <- E. reflexivity.
Qed.

Lemma released_with_log k l m :
  released (sleeps env k m) -> released (sleeps env k (with_log l m)).
Proof.
  destruct (sleeps_with_log k l m) as (l' & E). rewrite E. auto.
Qed.

(** The acknowledgement is the last action and follows the whole respond
    operation; while the respond operation waits there is none. *)
Lemma acknowledge_trace fuel payload m1 :
  exists sent,
    forallb respond_event sent = true /\
    match acknowledge (send_data_to_creator cb env fuel payload m1) with
    | Done m' _ =>
        events m' = events m1 ++ sent ++ [EvSetC2ACommand 0] /\
        c_to_a_command (hdr m') = 0
    | Spinning m' => events m' = events m1 ++ sent /\ busy m'
    end.
Proof.
  destruct (send_data_to_creator_events cb env fuel payload m1) as (sent & E & F).
  exists sent. split; [exact F|].
  pose proof (send_data_to_creator_outcome cb env fuel payload m1) as O.
  destruct (send_data_to_creator cb env fuel payload m1) as [m2 ok|m2];
    cbn [acknowledge state_of] in *.
  - rewrite events_set_c_to_a_command, E, <- app_assoc.
    rewrite hdr_set_c_to_a_command. split; reflexivity.
  - split; [exact E|]. inversion O; subst; assumption.
Qed.

(** With the Creator ready and the payload inside the buffer and the
    mapping, the respond operation publishes at once. *)
Lemma send_data_to_creator_ready fuel data m :
  shm_struct m <> NoStruct -> mmap_obj m = true ->
  (N.of_nat (List.length data) <= ACTUAL_A2C_BUFFER_SIZE m)%N ->
  a_to_c_status (hdr m) = 0 ->
  (cb + ACTUAL_C2A_BUFFER_SIZE m + N.of_nat (List.length data) <= mmap_size cb m)%N ->
  exists m2,
    mmap_write cb (cb + ACTUAL_C2A_BUFFER_SIZE m) data m = Some m2 /\
    send_data_to_creator cb env fuel data m
      = Done (publish (N.of_nat (List.length data)) m2) true.
Proof.
  intros Hs Hm Hfit H0 Hin. unfold send_data_to_creator.
  rewrite Hm. cbn [negb].
  replace (match shm_struct m with NoStruct => true | _ => false end) with false
    by (destruct (shm_struct m); [congruence | reflexivity | reflexivity]).
  cbn [orb]. apply N.ltb_ge in Hfit. rewrite Hfit.
  destruct (mmap_write_inside cb _ data m Hin) as (m2 & Ew & _).
  exists m2. split; [exact Ew|].
  apply Z.eqb_eq in H0. apply N.ltb_ge in Hin.
  destruct fuel; cbn [wait_for_ack]; rewrite H0, Hin, Ew; reflexivity.
Qed.

(** With the Creator ready and a payload larger than the A2C buffer, it
    signals the error at once. *)
Lemma send_data_to_creator_too_large fuel data m :
  shm_struct m <> NoStruct -> mmap_obj m = true ->
  (ACTUAL_A2C_BUFFER_SIZE m < N.of_nat (List.length data))%N ->
  a_to_c_status (hdr m) = 0 -> running (ext m) = true ->
  send_data_to_creator cb env fuel data m = Done (signal_error m) false.
Proof.
  intros Hs Hm Hbig H0 Hr. unfold send_data_to_creator.
  rewrite Hm. cbn [negb].
  replace (match shm_struct m with NoStruct => true | _ => false end) with false
    by (destruct (shm_struct m); [congruence | reflexivity | reflexivity]).
  cbn [orb]. apply N.ltb_lt in Hbig. rewrite Hbig.
  rewrite wait_while_busy_released by (now left).
  now rewrite Hr.
Qed.

End DataReady.

(** An inbound length of 65 bytes against a C2A buffer of 64: the error
    payload of 29 bytes fits the A2C buffer of 64 bytes and is published as
    a response; the state is left with [a_to_c_status = 1] and
    [a_to_c_data_len = 29], not with -1 and 0. *)
Lemma oversize_inbound_is_answered_with_status_1 :
  let m := attached (SHM 1 65 0 0 64 64) 128 in
  let m' := state_of (data_ready lp64_block idle_creator gradient_processing 5 m) in
  (defined_c2a_buffer_size (hdr m) < c_to_a_data_len (hdr m))%N /\
  data_ready lp64_block idle_creator gradient_processing 5 m = Done m' tt /\
  events m' = [EvWriteA2C 200 msg_too_large; EvFlush; EvSetA2CDataLen 29;
               EvSetA2CStatus 1; EvSetC2ACommand 0] /\
  a_to_c_status (hdr m') = 1 /\ a_to_c_data_len (hdr m') = 29%N /\
  ~ (a_to_c_status (hdr m') = -1 /\ a_to_c_data_len (hdr m') = 0%N).
Proof.
  intros m m'. vm_compute. repeat split; try reflexivity.
  intros [H _]. discriminate H.
Qed.

(** C2, amended: for an inbound length above the C2A capacity, processing
    reads nothing and calls no processing block, it returns the payload
    "Error: Creator data too large" (29 bytes) with the state untouched, and
    the DataReady branch hands that payload to the respond operation, whose
    actions are the only ones before the acknowledgement.  With the Creator
    ready, the payload is published ([a_to_c_status = 1],
    [a_to_c_data_len = 29]) when 29 bytes fit the A2C buffer and the mapping;
    the error signal ([a_to_c_status = -1], [a_to_c_data_len = 0]) is what
    results when the A2C buffer is smaller than 29 bytes. *)
Theorem oversize_inbound_gets_error_payload cb env proc fuel m :
  (ACTUAL_C2A_BUFFER_SIZE m < c_to_a_data_len (hdr m))%N ->
  process_data_from_creator cb proc (c_to_a_data_len (hdr m)) m
    = (m, Some msg_too_large)
  /\ data_ready cb env proc fuel m
     = acknowledge (send_data_to_creator cb env fuel msg_too_large m)
  /\ (exists sent,
        forallb respond_event sent = true /\
        match data_ready cb env proc fuel m with
        | Done m' _ => events m' = events m ++ sent ++ [EvSetC2ACommand 0]
        | Spinning m' => events m' = events m ++ sent
        end)
  /\ (shm_struct m <> NoStruct -> mmap_obj m = true ->
      a_to_c_status (hdr m) = 0 -> running (ext m) = true ->
      ((29 <= ACTUAL_A2C_BUFFER_SIZE m)%N ->
       (cb + ACTUAL_C2A_BUFFER_SIZE m + 29 <= mmap_size cb m)%N ->
       exists m',
         data_ready cb env proc fuel m = Done m' tt /\
         events m' = events m ++
           [EvWriteA2C (cb + ACTUAL_C2A_BUFFER_SIZE m) msg_too_large; EvFlush;
            EvSetA2CDataLen 29; EvSetA2CStatus 1; EvSetC2ACommand 0] /\
         a_to_c_status (hdr m') = 1 /\ a_to_c_data_len (hdr m') = 29%N)
      /\
      ((ACTUAL_A2C_BUFFER_SIZE m < 29)%N ->
       exists m',
         data_ready cb env proc fuel m = Done m' tt /\
         events m' = events m ++
           [EvSetA2CDataLen 0; EvSetA2CStatus (-1); EvSetC2ACommand 0] /\
         a_to_c_status (hdr m') = -1 /\ a_to_c_data_len (hdr m') = 0%N)).
Proof.
  intro Hover.
  pose proof (process_oversize cb proc m Hover) as P.
  pose proof (data_ready_after_process cb env proc fuel m m msg_too_large P) as D.
  split; [exact P|]. split; [exact D|]. split.
  - destruct (acknowledge_trace cb env fuel msg_too_large m) as (sent & F & T).
    exists sent. split; [exact F|]. rewrite D.
    destruct (acknowledge _); tauto.
  - intros Hs Hm H0 Hr. split.
    + intros Hfit Hin.
      destruct (send_data_to_creator_ready cb env fuel msg_too_large m Hs Hm Hfit H0 Hin)
        as (m2 & Ew & E).
      rewrite D, E. cbn [acknowledge]. eexists. split; [reflexivity|].
      destruct (publish_log cb _ _ _ _ Ew) as [_ Hh].
      rewrite events_set_c_to_a_command, (events_publish cb _ _ _ _ Ew), <- app_assoc.
      rewrite hdr_set_c_to_a_command, Hh. repeat split.
    + intros Hbig.
      rewrite D, (send_data_to_creator_too_large cb env fuel msg_too_large m Hs Hm Hbig H0 Hr).
      cbn [acknowledge]. eexists. split; [reflexivity|].
      destruct (signal_error_log m) as [_ Hh].
      rewrite events_set_c_to_a_command, events_signal_error, <- app_assoc.
      rewrite hdr_set_c_to_a_command, Hh. repeat split.
Qed.

Lemma oversize_inbound_gets_error_payload_witness :
  let m := attached (SHM 1 65 0 0 64 64) 128 in
  (ACTUAL_C2A_BUFFER_SIZE m < c_to_a_data_len (hdr m))%N /\
  process_data_from_creator lp64_block gradient_processing (c_to_a_data_len (hdr m)) m
    = (m, Some msg_too_large) /\
  data_ready lp64_block idle_creator gradient_processing 5 m
    = acknowledge (send_data_to_creator lp64_block idle_creator 5 msg_too_large m).
Proof.
  intro m.
  assert (H : (ACTUAL_C2A_BUFFER_SIZE m < c_to_a_data_len (hdr m))%N)
    by (vm_compute; reflexivity).
  split; [exact H|].
  destruct (oversize_inbound_gets_error_payload lp64_block idle_creator
              gradient_processing 5 m H) as (P & D & _).
  split; [exact P | exact D].
Defined.

(** The empty message: for a DataReady command with
    [c_to_a_data_len = 0], processing returns the payload "Acknowledged empty Creator message" (34 bytes) with
    the state untouched: no read of the C2A buffer, no call of the processing
    block.  The DataReady branch hands it to the respond operation like any
    response and acknowledges after it: the actions are those of the respond
    operation followed by [c_to_a_command = 0].  With the Creator ready and
    room for 34 bytes the payload is published; the branch completes once a
    poll finds the status released. *)
Lemma empty_message_is_acknowledged cb env proc fuel m :
  c_to_a_data_len (hdr m) = 0%N ->
  process_data_from_creator cb proc (c_to_a_data_len (hdr m)) m
    = (m, Some msg_empty_ack)
  /\ data_ready cb env proc fuel m
     = acknowledge (send_data_to_creator cb env fuel msg_empty_ack m)
  /\ (exists sent,
        forallb respond_event sent = true /\
        match data_ready cb env proc fuel m with
        | Done m' _ => events m' = events m ++ sent ++ [EvSetC2ACommand 0] /\
                       c_to_a_command (hdr m') = 0
        | Spinning m' => events m' = events m ++ sent /\ busy m'
        end)
  /\ (shm_struct m <> NoStruct -> mmap_obj m = true -> a_to_c_status (hdr m) = 0 ->
      (34 <= ACTUAL_A2C_BUFFER_SIZE m)%N ->
      (cb + ACTUAL_C2A_BUFFER_SIZE m + 34 <= mmap_size cb m)%N ->
      exists m',
        data_ready cb env proc fuel m = Done m' tt /\
        events m' = events m ++
          [EvWriteA2C (cb + ACTUAL_C2A_BUFFER_SIZE m) msg_empty_ack; EvFlush;
           EvSetA2CDataLen 34; EvSetA2CStatus 1; EvSetC2ACommand 0] /\
        a_to_c_status (hdr m') = 1 /\ a_to_c_data_len (hdr m') = 34%N /\
        c_to_a_command (hdr m') = 0)
  /\ (forall k, released (sleeps env k m) -> (k <= fuel)%nat ->
      exists m', data_ready cb env proc fuel m = Done m' tt).
Proof.
  intro Hlen.
  pose proof (process_empty cb proc m Hlen) as P.
  pose proof (data_ready_after_process cb env proc fuel m m msg_empty_ack P) as D.
  split; [exact P|]. split; [exact D|]. split; [|split].
  - rewrite D. apply acknowledge_trace.
  - intros Hs Hm H0 Hfit Hin.
    destruct (send_data_to_creator_ready cb env fuel msg_empty_ack m Hs Hm Hfit H0 Hin)
      as (m2 & Ew & E).
    rewrite D, E. cbn [acknowledge]. eexists. split; [reflexivity|].
    destruct (publish_log cb _ _ _ _ Ew) as [_ Hh].
    rewrite events_set_c_to_a_command, (events_publish cb _ _ _ _ Ew), <- app_assoc.
    rewrite hdr_set_c_to_a_command, Hh. repeat split.
  - intros k Hrel Hk.
    destruct (send_data_to_creator_returns cb env k fuel msg_empty_ack m Hrel Hk)
      as (m' & ok & E).
    rewrite D, E. cbn [acknowledge]. eauto.
Qed.

Lemma empty_message_is_acknowledged_witness :
  let m := attached (SHM 1 0 0 0 64 64) 128 in
  c_to_a_data_len (hdr m) = 0%N /\
  process_data_from_creator lp64_block gradient_processing (c_to_a_data_len (hdr m)) m
    = (m, Some msg_empty_ack) /\
  data_ready lp64_block idle_creator gradient_processing 5 m
    = acknowledge (send_data_to_creator lp64_block idle_creator 5 msg_empty_ack m).
Proof.
  intro m.
  assert (H : c_to_a_data_len (hdr m) = 0%N) by reflexivity.
  split; [exact H|].
  destruct (empty_message_is_acknowledged lp64_block idle_creator
              gradient_processing 5 m H) as (P & D & _).
  split; [exact P | exact D].
Defined.

(** The order of the DataReady branch: on a DataReady command the loop
    runs the DataReady branch.  Its actions are, in this order: those of processing (at most a read of the
    C2A buffer and a call of the processing block), those of the respond
    operation (sleeps, the write of the A2C buffer, the two A2C fields),
    and last [c_to_a_command = 0], whatever processing returned and whether
    the respond operation succeeded or failed.  As long as the respond
    operation waits, no acknowledgement is made; the branch completes as
    soon as a poll finds the status released. *)
Lemma command_reset_follows_respond cb env proc rounds fuel m :
  running (ext m) = true -> c_to_a_command (hdr m) = 1 ->
  polling_loop cb env proc (S rounds) fuel m
    = match data_ready cb env proc fuel m with
      | Spinning m1 => Spinning m1
      | Done m1 _ => polling_loop cb env proc rounds fuel m1
      end
  /\ (exists inbound sent,
        forallb inbound_event inbound = true /\
        forallb respond_event sent = true /\
        match data_ready cb env proc fuel m with
        | Done m' _ =>
            events m' = events m ++ inbound ++ sent ++ [EvSetC2ACommand 0] /\
            c_to_a_command (hdr m') = 0
        | Spinning m' => events m' = events m ++ inbound ++ sent /\ busy m'
        end)
  /\ (forall k, released (sleeps env k m) -> (k <= fuel)%nat ->
      exists m', data_ready cb env proc fuel m = Done m' tt).
Proof.
  intros Hr Hc.
  destruct (process_data_from_creator_total cb proc (c_to_a_data_len (hdr m)) m)
    as (inbound & payload & P & Fi).
  pose proof (data_ready_after_process cb env proc fuel m _ payload P) as D.
  split; [|split].
  - cbn [polling_loop]. rewrite Hr, Hc. reflexivity.
  - destruct (acknowledge_trace cb env fuel payload (with_log (log m ++ inbound) m))
      as (sent & Fs & T).
    exists (map fst inbound), sent. split; [exact Fi|]. split; [exact Fs|].
    rewrite D.
    replace (events (with_log (log m ++ inbound) m))
      with (events m ++ map fst inbound) in T
      by (unfold events; cbn [log with_log]; now rewrite map_app).
    destruct (acknowledge _); rewrite <- app_assoc in T; exact T.
  - intros k Hrel Hk.
    destruct (send_data_to_creator_returns cb env k fuel payload
                (with_log (log m ++ inbound) m)
                (released_with_log env k _ m Hrel) Hk) as (m' & ok & E).
    rewrite D, E. cbn [acknowledge]. eauto.
Qed.

Lemma command_reset_follows_respond_witness :
  let m := attached (SHM 1 10 0 0 64 64) 128 in
  let m' := state_of (data_ready lp64_block idle_creator gradient_processing 5 m) in
  running (ext m) = true /\ c_to_a_command (hdr m) = 1 /\
  polling_loop lp64_block idle_creator gradient_processing 1 5 m
    = polling_loop lp64_block idle_creator gradient_processing 0 5 m' /\
  events m' = [EvReadC2A 136 10; EvProcess (repeat "000"%byte 10);
               EvSetA2CDataLen 0; EvSetA2CStatus (-1); EvSetC2ACommand 0].
Proof.
  intros m m'.
  assert (Hr : running (ext m) = true) by reflexivity.
  assert (Hc : c_to_a_command (hdr m) = 1) by reflexivity.
  split; [exact Hr|]. split; [exact Hc|].
  destruct (command_reset_follows_respond lp64_block idle_creator
              gradient_processing 0 5 m Hr Hc) as (L & _ & _).
  split; [rewrite L; vm_compute; reflexivity | vm_compute; reflexivity].
Defined.

(** *** A DataReady command that is never acknowledged *)

(** The DataReady branch while the wait for an oversize response lasts: the
    peer holds the status and never touches the segment. *)
Lemma data_ready_stuck_in_oversize_wait cb proc fuel m m1 payload :
  process_data_from_creator cb proc (c_to_a_data_len (hdr m)) m
    = (m1, Some payload) ->
  shm_struct m1 <> NoStruct -> mmap_obj m1 = true ->
  (ACTUAL_A2C_BUFFER_SIZE m1 < N.of_nat (List.length payload))%N ->
  a_to_c_status (hdr m1) <> 0 -> running (ext m1) = true ->
  data_ready cb stalled_creator proc fuel m
    = Spinning (sleeps stalled_creator fuel m1) /\
  hdr (sleeps stalled_creator fuel m1) = hdr m1 /\
  events (sleeps stalled_creator fuel m1)
    = events m1 ++ repeat (EvSleep (5 # 1000)) fuel /\
  (0 < fuel ->
   now (ext (sleeps stalled_creator fuel m1))
     = (Z.of_nat (ticks m1 + fuel) * 5 # 1000))%nat.
Proof.
  intros P Hs Hm Hbig Hst Hr.
  rewrite (data_ready_after_process cb stalled_creator proc fuel m m1 payload P).
  rewrite (oversize_response_keeps_polling cb stalled_creator fuel payload m1 Hs Hm Hbig).
  - destruct (stalled_creator_keeps_header cb fuel m1) as (H1 & _ & _ & H5 & _).
    split; [reflexivity|]. split; [exact H1|].
    split; [apply sleeps_events | exact H5].
  - intro k. destruct (stalled_creator_keeps_header cb k m1) as (H1 & H2 & _).
    unfold busy. rewrite H1, H2. split; assumption.
Qed.

(** C5: a DataReady command with a 10-byte message, an A2C buffer of 64
    bytes and a Creator that has not taken the previous response
    ([a_to_c_status] stays 1).  The response of the example processing has
    400 bytes, so the respond operation takes its oversize branch, whose
    wait has no deadline: after any number of 5 ms polls, however far the
    clock is past 5 s, the DataReady branch is still inside the respond
    operation, the polling loop is stuck in it, and the acknowledgement has
    not been made: [c_to_a_command] is still 1 and the only actions are the
    read, the processing and the sleeps. *)
Theorem data_ready_command_is_never_reset :
  forall rounds fuel,
    let m := attached (SHM 1 10 1 29 64 64) 128 in
    let m1 := record (EvProcess (repeat "000"%byte 10))
                (record (EvReadC2A 136 10) m) in
    let r := data_ready lp64_block stalled_creator gradient_processing fuel m in
    r = Spinning (sleeps stalled_creator fuel m1) /\
    polling_loop lp64_block stalled_creator gradient_processing (S rounds) fuel m = r /\
    c_to_a_command (hdr (state_of r)) = 1 /\
    a_to_c_status (hdr (state_of r)) = 1 /\
    events (state_of r)
      = [EvReadC2A 136 10; EvProcess (repeat "000"%byte 10)]
        ++ repeat (EvSleep (5 # 1000)) fuel /\
    existsb (fun e => match e with EvSetC2ACommand _ => true | _ => false end)
            (events (state_of r)) = false /\
    now (ext (state_of r)) == inject_Z (Z.of_nat fuel) * (5 # 1000).
Proof.
  intros rounds fuel m m1 r.
  assert (P : process_data_from_creator lp64_block gradient_processing
                (c_to_a_data_len (hdr m)) m = (m1, Some gradient_image))
    by (vm_compute; reflexivity).
  destruct (data_ready_stuck_in_oversize_wait lp64_block gradient_processing fuel
              m m1 gradient_image P)
    as (E & Hh & Hev & Hnow);
    [discriminate | reflexivity | vm_compute; reflexivity | discriminate | reflexivity |].
  fold r in E.
  assert (L : polling_loop lp64_block stalled_creator gradient_processing
                (S rounds) fuel m
              = match r with
                | Spinning m2 => Spinning m2
                | Done m2 _ => polling_loop lp64_block stalled_creator
                                 gradient_processing rounds fuel m2
                end) by reflexivity.
  rewrite L, E. cbn [state_of]. rewrite Hh, Hev.
  split; [reflexivity|]. split; [reflexivity|]. split; [reflexivity|].
  split; [reflexivity|]. split; [reflexivity|]. split.
  - rewrite existsb_app, existsb_repeat_false; reflexivity.
  - destruct fuel as [|fuel]; [reflexivity|].
    rewrite Hnow by lia. cbn [m1 m attached record with_log ticks Nat.add].
    unfold Qeq, Qmult, inject_Z. cbn [Qnum Qden]. lia.
Qed.

(** C10: a DataReady command with [c_to_a_data_len = 0], an A2C buffer of
    16 bytes and a Creator that has not taken the previous response
    ([a_to_c_status] stays 1).  Processing reads nothing and returns the
    34-byte acknowledgement payload, which does not fit: the respond
    operation takes its oversize branch, whose wait has no deadline.  After
    any number of 5 ms polls, however far the clock is past 5 s, the payload
    has not been sent, no error has been signalled and the command has not
    been acknowledged: [c_to_a_command] is still 1, the A2C fields are as
    the Creator left them, and the only actions are the sleeps. *)
Theorem empty_message_is_never_acknowledged :
  forall rounds fuel,
    let m := attached (SHM 1 0 1 29 64 16) 128 in
    let r := data_ready lp64_block stalled_creator gradient_processing fuel m in
    process_data_from_creator lp64_block gradient_processing
      (c_to_a_data_len (hdr m)) m = (m, Some msg_empty_ack) /\
    (ACTUAL_A2C_BUFFER_SIZE m < N.of_nat (List.length msg_empty_ack))%N /\
    r = Spinning (sleeps stalled_creator fuel m) /\
    polling_loop lp64_block stalled_creator gradient_processing (S rounds) fuel m = r /\
    c_to_a_command (hdr (state_of r)) = 1 /\
    a_to_c_status (hdr (state_of r)) = 1 /\
    a_to_c_data_len (hdr (state_of r)) = 29%N /\
    events (state_of r) = repeat (EvSleep (5 # 1000)) fuel /\
    now (ext (state_of r)) == inject_Z (Z.of_nat fuel) * (5 # 1000).
Proof.
  intros rounds fuel m r.
  assert (P : process_data_from_creator lp64_block gradient_processing
                (c_to_a_data_len (hdr m)) m = (m, Some msg_empty_ack))
    by (apply process_empty; reflexivity).
  assert (Hbig : (ACTUAL_A2C_BUFFER_SIZE m < N.of_nat (List.length msg_empty_ack))%N)
    by (vm_compute; reflexivity).
  destruct (data_ready_stuck_in_oversize_wait lp64_block gradient_processing fuel
              m m msg_empty_ack P)
    as (E & Hh & Hev & Hnow);
    [discriminate | reflexivity | exact Hbig | discriminate | reflexivity |].
  fold r in E.
  assert (L : polling_loop lp64_block stalled_creator gradient_processing
                (S rounds) fuel m
              = match r with
                | Spinning m2 => Spinning m2
                | Done m2 _ => polling_loop lp64_block stalled_creator
                                 gradient_processing rounds fuel m2
                end) by reflexivity.
  rewrite L, E. cbn [state_of]. rewrite Hh, Hev.
  split; [exact P|]. split; [exact Hbig|].
  split; [reflexivity|]. split; [reflexivity|]. split; [reflexivity|].
  split; [reflexivity|]. split; [reflexivity|]. split; [reflexivity|].
  destruct fuel as [|fuel]; [reflexivity|].
  rewrite Hnow by lia. cbn [m attached ticks Nat.add].
  unfold Qeq, Qmult, inject_Z. cbn [Qnum Qden]. lia.
Qed.

(** *** Start-up and shutdown *)
Section Lifecycle.

Variable cb : N.
Variable env : nat -> world -> world.
Variable example_processing : list byte -> option (list byte).
Variable os : os_calls.

Lemma backoff_closed_form k : backoff k == (1 # 10) * (3 # 2) ^ Z.of_nat k.
Proof.
  induction k as [|k IH].
  - reflexivity.
  - cbn [backoff]. rewrite IH, Nat2Z.inj_succ. unfold Z.succ.
    rewrite (Qpower_plus (3 # 2) (Z.of_nat k) 1) by (intro H; discriminate H).
    rewrite Qmult_assoc. reflexivity.
Qed.

Lemma events_with_shm_fd fd m : events (with_shm_fd fd m) = events m.
Proof. reflexivity. Qed.

(** One more attempt of the attach loop, when the call fails and attempts
    are left. *)
Lemma open_segment_retry attempt rest delay m :
  c_shm_open os attempt = -1 -> attempt <> (attach_attempts - 1)%nat ->
  open_segment env os (attempt :: rest) delay m
    = open_segment env os rest (delay * (3 # 2))
        (sleep env delay (record (EvShmOpen attempt (-1)) (with_shm_fd (-1) m))).
Proof.
  intros H Hn. cbn [open_segment]. rewrite H. cbn [Z.eqb Pos.eqb negb].
  apply Nat.eqb_neq in Hn. now rewrite Hn.
Qed.

Lemma open_segment_success attempt rest delay m :
  c_shm_open os attempt <> -1 ->
  open_segment env os (attempt :: rest) delay m
    = Proceed (record (EvShmOpen attempt (c_shm_open os attempt))
                 (with_shm_fd (c_shm_open os attempt) m)).
Proof.
  intros H. cbn [open_segment]. apply Z.eqb_neq in H. now rewrite H.
Qed.

Lemma open_segment_last delay m rest :
  c_shm_open os (attach_attempts - 1) = -1 ->
  open_segment env os ((attach_attempts - 1)%nat :: rest) delay m
    = Fatal (record (EvShmOpen (attach_attempts - 1) (-1)) (with_shm_fd (-1) m)) 1.
Proof. intros H. cbn [open_segment]. rewrite H. reflexivity. Qed.

Ltac retry_attempt H :=
  rewrite open_segment_retry
    by first [ apply H; unfold attach_attempts; lia
             | unfold attach_attempts; simpl; lia ].

Ltac collect_events :=
  repeat first [ rewrite events_record
               | rewrite events_with_shm_fd
               | rewrite (events_sleep env) ];
  rewrite <- ?app_assoc.

(** The segment is there at the [n]-th attempt. *)
Lemma open_segment_at_nth n m :
  (1 <= n <= attach_attempts)%nat ->
  (forall k, (k < n - 1)%nat -> c_shm_open os k = -1) ->
  c_shm_open os (n - 1) <> -1 ->
  exists m',
    open_segment env os (seq 0 attach_attempts) (1 # 10) m = Proceed m' /\
    shm_fd m' = c_shm_open os (n - 1) /\
    events m' = events m ++ failed_attempts (n - 1)
                         ++ [EvShmOpen (n - 1) (c_shm_open os (n - 1))].
Proof.
  intros Hn Hfail Hok.
  change (seq 0 attach_attempts) with [0; 1; 2; 3; 4]%nat.
  destruct n as [|[|[|[|[|[|n]]]]]]; try (unfold attach_attempts in Hn; lia);
    cbn [Nat.sub] in *.
  - rewrite open_segment_success by exact Hok.
    eexists. split; [reflexivity|]. split; [reflexivity|]. collect_events. reflexivity.
  - retry_attempt Hfail.
    rewrite open_segment_success by exact Hok.
    eexists. split; [reflexivity|]. split; [reflexivity|]. collect_events. reflexivity.
  - do 2 retry_attempt Hfail.
    rewrite open_segment_success by exact Hok.
    eexists. split; [reflexivity|]. split; [reflexivity|]. collect_events. reflexivity.
  - do 3 retry_attempt Hfail.
    rewrite open_segment_success by exact Hok.
    eexists. split; [reflexivity|]. split; [reflexivity|]. collect_events. reflexivity.
  - do 4 retry_attempt Hfail.
    rewrite open_segment_success by exact Hok.
    eexists. split; [reflexivity|]. split; [reflexivity|]. collect_events. reflexivity.
Qed.

(** The segment is not there at any of the five attempts. *)
Lemma open_segment_never m :
  (forall k, (k < attach_attempts)%nat -> c_shm_open os k = -1) ->
  exists m',
    open_segment env os (seq 0 attach_attempts) (1 # 10) m = Fatal m' 1 /\
    events m' = events m ++ failed_attempts (attach_attempts - 1)
                         ++ [EvShmOpen (attach_attempts - 1) (-1)].
Proof.
  intros Hfail.
  change (seq 0 attach_attempts) with [0; 1; 2; 3; 4]%nat.
  do 4 retry_attempt Hfail.
  change 4%nat with (attach_attempts - 1)%nat at 1.
  rewrite open_segment_last by (apply Hfail; unfold attach_attempts; lia).
  eexists. split; [reflexivity|]. collect_events. reflexivity.
Qed.

(** C7: the attach loop calls [shm_open] at most five times, sleeping 0.1 s
    after the first failure and 1.5 times longer after each further one.
    When the first [n - 1] calls fail and the [n]-th succeeds, [n <= 5], the
    loop is left with that descriptor after exactly [n] calls; when all five
    fail, the fifth failure ends [main_loop] with [sys.exit(1)], without a
    sixth call or a further sleep. *)
Theorem attach_retries_with_backoff m :
  (forall n, (1 <= n <= attach_attempts)%nat ->
     (forall k, (k < n - 1)%nat -> c_shm_open os k = -1) ->
     c_shm_open os (n - 1) <> -1 ->
     exists m',
       open_segment env os (seq 0 attach_attempts) (1 # 10) (with_shm_fd (-1) m)
         = Proceed m' /\
       shm_fd m' = c_shm_open os (n - 1) /\
       events m' = events m ++ failed_attempts (n - 1)
                            ++ [EvShmOpen (n - 1) (c_shm_open os (n - 1))])
  /\
  ((forall k, (k < attach_attempts)%nat -> c_shm_open os k = -1) ->
     exists m',
       (forall rounds fuel,
          main_loop cb env example_processing os rounds fuel m
            = Done m' (SysExit 1)) /\
       events m' = events m ++ failed_attempts (attach_attempts - 1)
                            ++ [EvShmOpen (attach_attempts - 1) (-1)] /\
       exit_status (SysExit 1) <> 0)
  /\
  (forall k, backoff k == (1 # 10) * (3 # 2) ^ Z.of_nat k).
Proof.
  split; [|split].
  - intros n Hn Hfail Hok.
    apply (open_segment_at_nth n (with_shm_fd (-1) m) Hn Hfail Hok).
  - intros Hfail.
    destruct (open_segment_never (with_shm_fd (-1) m) Hfail) as (m' & E & Ev).
    exists m'. split; [|split; [exact Ev | discriminate]].
    intros rounds fuel. unfold main_loop, initialise, attach_and_map.
    rewrite E. reflexivity.
  - exact backoff_closed_form.
Qed.

End Lifecycle.

Lemma attach_retries_with_backoff_witness :
  let m := boot (World (SHM 0 0 0 0 64 64) (repeat "000"%byte 128) true 0) in
  (exists m',
     open_segment idle_creator late_segment (seq 0 attach_attempts) (1 # 10)
       (with_shm_fd (-1) m) = Proceed m' /\
     shm_fd m' = 3 /\
     events m' = [EvShmOpen 0 (-1); EvSleep (1 # 10);
                  EvShmOpen 1 (-1); EvSleep ((1 # 10) * (3 # 2));
                  EvShmOpen 2 3])
  /\
  (exists m',
     (forall rounds fuel,
        main_loop lp64_block idle_creator gradient_processing no_segment rounds fuel m
          = Done m' (SysExit 1)) /\
     events m' = [EvShmOpen 0 (-1); EvSleep (1 # 10);
                  EvShmOpen 1 (-1); EvSleep ((1 # 10) * (3 # 2));
                  EvShmOpen 2 (-1); EvSleep ((1 # 10) * (3 # 2) * (3 # 2));
                  EvShmOpen 3 (-1); EvSleep ((1 # 10) * (3 # 2) * (3 # 2) * (3 # 2));
                  EvShmOpen 4 (-1)]).
Proof.
  intro m. split.
  - destruct (attach_retries_with_backoff lp64_block idle_creator gradient_processing
                late_segment m) as (H & _ & _).
    destruct (H 3%nat) as (m' & E & F & Ev).
    + unfold attach_attempts. lia.
    + intros k Hk. destruct k as [|[|k]]; [reflexivity | reflexivity | lia].
    + discriminate.
    + exists m'. split; [exact E|]. split; [exact F | exact Ev].
  - destruct (attach_retries_with_backoff lp64_block idle_creator gradient_processing
                no_segment m) as (_ & H & _).
    destruct H as (m' & E & Ev & _).
    + intros k _. reflexivity.
    + exists m'. split; [exact E | exact Ev].
Defined.

Section StartUp.

Variable cb : N.
Variable env : nat -> world -> world.
Variable example_processing : list byte -> option (list byte).
Variable os : os_calls.

(** Leaving the attach loop normally means that a call succeeded, as long
    as the last attempt is among those tried; the loop only opens and
    sleeps. *)
Lemma open_segment_proceeds attempts : forall delay m m',
  open_segment env os attempts delay m = Proceed m' ->
  (shm_fd m' <> -1 \/ ~ In (attach_attempts - 1)%nat attempts) /\
  mmap_obj m' = mmap_obj m /\ shm_struct m' = shm_struct m /\
  exists evs, events m' = events m ++ evs /\ forallb attach_event evs = true.
Proof.
  induction attempts as [|attempt rest IH]; intros delay m m' H.
  - injection H as <-. split; [right; intros []|]. split; [reflexivity|].
    split; [reflexivity|]. exists []. now rewrite app_nil_r.
  - cbn [open_segment] in H.
    destruct (Z.eqb_spec (c_shm_open os attempt) (-1)) as [E|E]; cbn [negb] in H.
    + destruct (Nat.eqb_spec attempt (attach_attempts - 1)) as [L|L]; [discriminate|].
      destruct (IH _ _ _ H) as (Hfd & Hm & Hs & evs & Hev & Hall).
      split; [|split; [exact Hm | split; [exact Hs|]]].
      * destruct Hfd as [Hfd|Hfd]; [now left | right].
        intros [Hin|Hin]; [congruence | contradiction].
      * exists ([EvShmOpen attempt (c_shm_open os attempt); EvSleep delay] ++ evs).
        split.
        -- rewrite Hev, (events_sleep env), events_record, events_with_shm_fd.
           now rewrite <- !app_assoc.
        -- cbn [forallb app attach_event andb]. exact Hall.
    + injection H as <-. split; [left; exact E|]. split; [reflexivity|].
      split; [reflexivity|].
      exists [EvShmOpen attempt (c_shm_open os attempt)].
      split; [now rewrite events_record, events_with_shm_fd | reflexivity].
Qed.

(** After a successful attach the descriptor is open, the segment is mapped
    and the control block is in view. *)
Lemma attach_and_map_proceeds m0 m :
  attach_and_map env os m0 = Proceed m ->
  shm_fd m <> -1 /\ mmap_obj m = true /\ shm_struct m <> NoStruct /\
  exists evs, events m = events m0 ++ evs /\ forallb attach_event evs = true.
Proof.
  unfold attach_and_map. intro H.
  destruct (open_segment env os (seq 0 attach_attempts) (1 # 10) (with_shm_fd (-1) m0))
    as [m1|m1 code|m1 e] eqn:Eo; cbn [and_then] in H; [|discriminate|discriminate].
  destruct (open_segment_proceeds _ _ _ _ Eo) as (Hfd & _ & _ & evs & Hev & Hall).
  destruct Hfd as [Hfd|Hfd];
    [|exfalso; apply Hfd; unfold attach_attempts; simpl; tauto].
  unfold map_segment in H.
  destruct (fstat_raises os); [discriminate|].
  destruct (mmap_raises os); [discriminate|].
  cbn [and_then] in H. unfold map_control_structure, close_and_exit in H.
  destruct (from_buffer_raises os);
    [destruct (from_buffer_copy_raises os); [destruct (_ && _); discriminate|]
    |destruct (mmap_too_short os); [discriminate|]];
    injection H as <-; cbn;
    (split; [exact Hfd|]; split; [reflexivity|]; split; [discriminate|]);
    exists evs; (split; [exact Hev | exact Hall]).
Qed.

Lemma close_mmap_mapped m :
  mmap_obj m = true -> close_mmap m = record EvCloseMmap m.
Proof. intro H. unfold close_mmap. now rewrite H. Qed.

Lemma close_fd_open m :
  c_close os = true -> shm_fd m <> -1 ->
  close_fd os m = record (EvCloseFd (shm_fd m)) m.
Proof.
  intros Hc Hfd. unfold close_fd. apply Z.eqb_neq in Hfd. now rewrite Hc, Hfd.
Qed.


End StartUp.


(** *** The script from start to end *)

(** A segment with the shutdown command already posted: attach at the first
    attempt, acknowledge, clean up, exit status 0. *)
Example script_shutdown_run :
  let w := World (SHM 99 0 0 0 64 64) (repeat "000"%byte 128) true 0 in
  let r := script lp64_block idle_creator gradient_processing posix_ok
             ["script.py"; "/ipc_segment"]%string 3 3 w in
  events (state_of r)
    = [EvShmOpen 0 3; EvSetC2ACommand 0; EvStop; EvCloseMmap; EvCloseFd 3] /\
  r = Done (state_of r) Returned /\ exit_status Returned = 0.
Proof. vm_compute. repeat split. Qed.

(** The round trip of a 10-byte message with buffers of 64 bytes: the 400
    bytes of the example image do not fit, the error signal is written and
    the command is acknowledged; the loop then idles. *)
Example script_round_trip_run :
  let w := World (SHM 1 10 0 0 64 64) (repeat "000"%byte 128) true 0 in
  let r := script lp64_block idle_creator gradient_processing posix_ok
             ["script.py"; "/ipc_segment"]%string 2 3 w in
  events (state_of r)
    = [EvShmOpen 0 3; EvReadC2A 136 10; EvProcess (repeat "000"%byte 10);
       EvSetA2CDataLen 0; EvSetA2CStatus (-1); EvSetC2ACommand 0;
       EvSleep (5 # 1000)] /\
  a_to_c_status (hdr (state_of r)) = -1 /\ c_to_a_command (hdr (state_of r)) = 0.
Proof. vm_compute. repeat split. Qed.

(** A missing argument: usage message and exit status 1. *)
Example script_usage_run :
  forall w,
    script lp64_block idle_creator gradient_processing posix_ok
      ["script.py"]%string 3 3 w = Done (boot w) (SysExit 1).
Proof. reflexivity. Qed.

(** ** Further properties *)

(** *** The hex preview *)

Lemma string_length_append (s t : string) :
  String.length (s ++ t) = (String.length s + String.length t)%nat.
Proof. induction s as [|c s IH]; simpl; [reflexivity | now rewrite IH]. Qed.

Lemma string_forallb_append p (s t : string) :
  string_forallb p (s ++ t) = string_forallb p s && string_forallb p t.
Proof.
  induction s as [|c s IH]; simpl; [reflexivity|].
  now rewrite IH, andb_assoc.
Qed.

Lemma hex_join_cons b b' rest :
  hex_join (b :: b' :: rest)
  = (byte_to_hex b ++ " " ++ hex_join (b' :: rest))%string.
Proof. reflexivity. Qed.

Lemma hex_decode_single b : hex_decode (byte_to_hex b) = Some [b].
Proof. destruct b; reflexivity. Qed.

Lemma hex_decode_more b (s : string) :
  hex_decode (byte_to_hex b ++ " " ++ s) = option_map (cons b) (hex_decode s).
Proof. destruct b; reflexivity. Qed.

Lemma byte_to_hex_shape b :
  String.length (byte_to_hex b) = 2%nat /\
  string_forallb preview_char (byte_to_hex b) = true.
Proof. destruct b; split; reflexivity. Qed.

Lemma hex_decode_hex_join b rest : hex_decode (hex_join (b :: rest)) = Some (b :: rest).
Proof.
  revert b; induction rest as [|b' rest IH]; intro b.
  - apply hex_decode_single.
  - rewrite hex_join_cons, hex_decode_more, IH. reflexivity.
Qed.

Lemma hex_join_shape b rest :
  String.length (hex_join (b :: rest)) = (3 * List.length (b :: rest) - 1)%nat /\
  string_forallb preview_char (hex_join (b :: rest)) = true.
Proof.
  revert b; induction rest as [|b' rest IH]; intro b.
  - destruct (byte_to_hex_shape b) as [L F]. split; [exact L | exact F].
  - destruct (IH b') as [L F]. destruct (byte_to_hex_shape b) as [Lb Fb].
    rewrite hex_join_cons. split.
    + rewrite !string_length_append, Lb, L. cbn [String.length List.length]. lia.
    + rewrite !string_forallb_append, Fb, F. reflexivity.
Qed.

(** X1: a payload of at most [2 * max_bytes] bytes is previewed in full:
    reading the preview back, two uppercase hex digits per byte separated by
    single spaces, gives the payload again. *)
Theorem preview_of_short_payload_reads_back bytes_data max_bytes :
  bytes_data <> [] ->
  Z.of_nat (List.length bytes_data) <= max_bytes * 2 ->
  hex_decode (bytesToHexPreview bytes_data max_bytes) = Some bytes_data.
Proof.
  intros Hne Hlen. destruct bytes_data as [|b rest]; [congruence|].
  unfold bytesToHexPreview. apply Z.leb_le in Hlen. rewrite Hlen.
  apply hex_decode_hex_join.
Qed.

Lemma preview_of_short_payload_reads_back_witness :
  msg_too_large <> [] /\
  Z.of_nat (List.length msg_too_large) <= default_max_bytes * 2 /\
  hex_decode (bytesToHexPreview msg_too_large default_max_bytes) = Some msg_too_large.
Proof.
  assert (H1 : msg_too_large <> []) by discriminate.
  assert (H2 : Z.of_nat (List.length msg_too_large) <= default_max_bytes * 2)
    by (vm_compute; discriminate).
  split; [exact H1|]. split; [exact H2|].
  exact (preview_of_short_payload_reads_back msg_too_large default_max_bytes H1 H2).
Defined.

(** X2: the preview of a payload of [n] bytes, [0 < n <= 2 * max_bytes], has
    [3 * n - 1] characters, each a space or an uppercase hex digit. *)
Theorem preview_of_short_payload_shape bytes_data max_bytes :
  bytes_data <> [] ->
  Z.of_nat (List.length bytes_data) <= max_bytes * 2 ->
  String.length (bytesToHexPreview bytes_data max_bytes)
    = (3 * List.length bytes_data - 1)%nat /\
  string_forallb preview_char (bytesToHexPreview bytes_data max_bytes) = true.
Proof.
  intros Hne Hlen. destruct bytes_data as [|b rest]; [congruence|].
  unfold bytesToHexPreview. apply Z.leb_le in Hlen. rewrite Hlen.
  apply hex_join_shape.
Qed.

Lemma preview_of_short_payload_shape_witness :
  msg_empty_ack <> [] /\
  Z.of_nat (List.length msg_empty_ack) <= default_max_bytes * 2 /\
  String.length (bytesToHexPreview msg_empty_ack default_max_bytes) = 101%nat.
Proof.
  assert (H1 : msg_empty_ack <> []) by discriminate.
  assert (H2 : Z.of_nat (List.length msg_empty_ack) <= default_max_bytes * 2)
    by (vm_compute; discriminate).
  split; [exact H1|]. split; [exact H2|].
  exact (proj1 (preview_of_short_payload_shape msg_empty_ack default_max_bytes H1 H2)).
Defined.

Lemma slice_index_inside len i :
  0 <= i <= len -> slice_index len i = Z.to_nat i.
Proof.
  intro H. unfold slice_index.
  destruct (Z.ltb_spec i 0); [lia|]. f_equal. lia.
Qed.

Lemma long_preview_shape l max_bytes :
  0 <= max_bytes -> max_bytes * 2 < Z.of_nat (List.length l) ->
  bytesToHexPreview l max_bytes
  = ("First " ++ NilZero.string_of_int (Z.to_int max_bytes) ++ ": "
     ++ hex_join (firstn (Z.to_nat max_bytes) l)
     ++ " ... Last " ++ NilZero.string_of_int (Z.to_int max_bytes) ++ ": "
     ++ hex_join (skipn (List.length l - Z.to_nat max_bytes) l))%string /\
  List.length (firstn (Z.to_nat max_bytes) l) = Z.to_nat max_bytes /\
  List.length (skipn (List.length l - Z.to_nat max_bytes) l) = Z.to_nat max_bytes.
Proof.
  intros Hmax Hl. split; [|split].
  - unfold bytesToHexPreview.
    destruct l as [|b rest]; [cbn [List.length] in Hl; lia|].
    replace (Z.of_nat (List.length (b :: rest)) <=? max_bytes * 2) with false
      by (symmetry; apply Z.leb_gt; exact Hl).
    rewrite !slice_index_inside by lia.
    replace (Z.to_nat (Z.of_nat (List.length (b :: rest)) - max_bytes))
      with (List.length (b :: rest) - Z.to_nat max_bytes)%nat by lia.
    reflexivity.
  - rewrite length_firstn. lia.
  - rewrite length_skipn. lia.
Qed.

(** X3: a payload longer than [2 * max_bytes] bytes is previewed by its
    first [max_bytes] and its last [max_bytes] bytes only: the preview names
    [max_bytes] twice and carries exactly that many bytes on each side, so
    the bytes in between have no part in it. *)
Theorem preview_of_long_payload bytes_data max_bytes :
  0 <= max_bytes ->
  max_bytes * 2 < Z.of_nat (List.length bytes_data) ->
  let n := Z.to_nat max_bytes in
  let first_bytes := firstn n bytes_data in
  let last_bytes := skipn (List.length bytes_data - n) bytes_data in
  bytesToHexPreview bytes_data max_bytes
    = ("First " ++ NilZero.string_of_int (Z.to_int max_bytes) ++ ": "
       ++ hex_join first_bytes
       ++ " ... Last " ++ NilZero.string_of_int (Z.to_int max_bytes) ++ ": "
       ++ hex_join last_bytes)%string /\
  List.length first_bytes = n /\ List.length last_bytes = n /\
  forall other,
    max_bytes * 2 < Z.of_nat (List.length other) ->
    firstn n other = first_bytes ->
    skipn (List.length other - n) other = last_bytes ->
    bytesToHexPreview other max_bytes = bytesToHexPreview bytes_data max_bytes.
Proof.
  intros Hmax Hlong n first_bytes last_bytes.
  destruct (long_preview_shape bytes_data max_bytes Hmax Hlong) as (E & Lf & Ll).
  split; [exact E|]. split; [exact Lf|]. split; [exact Ll|].
  intros other Hother Hf Hl.
  destruct (long_preview_shape other max_bytes Hmax Hother) as (E' & _ & _).
  rewrite E, E'. fold n. rewrite Hf, Hl. reflexivity.
Qed.

Lemma preview_of_long_payload_witness :
  0 <= default_max_bytes /\
  default_max_bytes * 2 < Z.of_nat (List.length gradient_image) /\
  List.length (firstn 30 gradient_image) = 30%nat /\
  bytesToHexPreview (gradient_image ++ gradient_image) default_max_bytes
    = bytesToHexPreview gradient_image default_max_bytes.
Proof.
  assert (H1 : 0 <= default_max_bytes) by (vm_compute; discriminate).
  assert (H2 : default_max_bytes * 2 < Z.of_nat (List.length gradient_image))
    by (vm_compute; reflexivity).
  split; [exact H1|]. split; [exact H2|].
  destruct (preview_of_long_payload gradient_image default_max_bytes H1 H2)
    as (_ & L & _ & Same).
  split; [exact L|].
  apply Same; vm_compute; reflexivity.
Defined.

(** X4: with the default of 30 bytes per side the preview never has more
    than 202 characters, whatever the size of the payload: 16 for an empty
    payload, at most 179 for up to 60 bytes, 202 beyond. *)
Theorem preview_length_is_bounded bytes_data :
  (String.length (bytesToHexPreview bytes_data default_max_bytes) <= 202)%nat /\
  (bytes_data = [] ->
   bytesToHexPreview bytes_data default_max_bytes = "(no binary data)"%string) /\
  (60 < List.length bytes_data ->
   String.length (bytesToHexPreview bytes_data default_max_bytes) = 202)%nat.
Proof.
  assert (long : (60 < List.length bytes_data ->
            String.length (bytesToHexPreview bytes_data default_max_bytes) = 202)%nat).
  { intro Hl.
    assert (H1 : 0 <= default_max_bytes) by (vm_compute; discriminate).
    assert (H2 : default_max_bytes * 2 < Z.of_nat (List.length bytes_data))
      by (unfold default_max_bytes; lia).
    destruct (long_preview_shape bytes_data default_max_bytes H1 H2) as (E & Lf & Ll).
    change (Z.to_nat default_max_bytes) with 30%nat in *.
    rewrite E, !string_length_append.
    destruct (firstn 30 bytes_data) as [|f fs] eqn:Ef; [discriminate Lf|].
    destruct (skipn (List.length bytes_data - 30) bytes_data) as [|l ls] eqn:El;
      [discriminate Ll|].
    rewrite (proj1 (hex_join_shape f fs)), (proj1 (hex_join_shape l ls)), Lf, Ll.
    reflexivity. }
  split; [|split; [intros ->; reflexivity | exact long]].
  destruct (Nat.leb_spec (List.length bytes_data) 60) as [Hs|Hl].
  - destruct bytes_data as [|b rest]; [cbn; lia|].
    unfold bytesToHexPreview.
    replace (Z.of_nat (List.length (b :: rest)) <=? default_max_bytes * 2) with true
      by (symmetry; apply Z.leb_le; unfold default_max_bytes; lia).
    rewrite (proj1 (hex_join_shape b rest)). lia.
  - rewrite (long Hl). lia.
Qed.

(** *** Reading and processing a Creator message *)

Lemma mmap_slice_length cb offset length m :
  (cb <= offset)%N -> (offset + length <= mmap_size cb m)%N ->
  List.length (mmap_slice cb offset length m) = N.to_nat length.
Proof.
  intros Ho Hb. unfold mmap_slice, mmap_size in *.
  rewrite length_firstn, length_skipn. lia.
Qed.

(** X5: [get_buffer_view] hands out bytes only from inside the mapping: a
    view is returned exactly when the segment is mapped and
    [offset + length] does not pass its end, it then has exactly [length]
    bytes and the state is only read; otherwise nothing is returned and
    nothing is read. *)
Theorem get_buffer_view_stays_inside cb offset length m :
  (cb <= offset)%N ->
  match get_buffer_view cb offset length m with
  | (m', Some view) =>
      mmap_obj m = true /\ (offset + length <= mmap_size cb m)%N /\
      view = mmap_slice cb offset length m /\
      List.length view = N.to_nat length /\
      ext m' = ext m /\
      events m' = events m ++ [EvReadC2A offset length]
  | (m', None) =>
      m' = m /\ (mmap_obj m = false \/ (mmap_size cb m < offset + length)%N)
  end.
Proof.
  intro Ho. unfold get_buffer_view.
  destruct (mmap_obj m) eqn:Hm; cbn [andb].
  - destruct (N.leb_spec (offset + length) (mmap_size cb m)) as [Hb|Hb].
    + repeat split; auto.
      * now apply mmap_slice_length.
      * apply events_record.
    + split; [reflexivity | now right].
  - split; [reflexivity | now left].
Qed.

Lemma get_buffer_view_stays_inside_witness :
  let m := attached (SHM 1 10 0 0 64 64) 128 in
  (lp64_block <= lp64_block)%N /\
  snd (get_buffer_view lp64_block lp64_block 10 m) = Some (repeat "000"%byte 10) /\
  snd (get_buffer_view lp64_block lp64_block 129 m) = None.
Proof.
  intro m.
  assert (H : (lp64_block <= lp64_block)%N) by (vm_compute; discriminate).
  split; [exact H|].
  pose proof (get_buffer_view_stays_inside lp64_block lp64_block 10 m H) as V.
  pose proof (get_buffer_view_stays_inside lp64_block lp64_block 129 m H) as W.
  split.
  - destruct (get_buffer_view lp64_block lp64_block 10 m) as [m' [view|]] eqn:E.
    + destruct V as (_ & _ & -> & _). vm_compute. reflexivity.
    + vm_compute in E. discriminate E.
  - destruct (get_buffer_view lp64_block lp64_block 129 m) as [m' [view|]] eqn:E.
    + vm_compute in E. discriminate E.
    + reflexivity.
Defined.

(** X6: processing always answers with a payload, never with [None], so
    the loop never falls back on its own error payload; the payload is one of
    the four fixed messages or an output of the processing block, and
    processing leaves the segment, the flags and the globals as they were. *)
Theorem processing_always_answers cb env proc fuel data_len m :
  exists m1 payload,
    process_data_from_creator cb proc data_len m = (m1, Some payload) /\
    ext m1 = ext m /\ hdr m1 = hdr m /\ same_globals m m1 /\
    (payload = msg_too_large \/ payload = msg_no_view \/
     payload = msg_processing_failed \/ payload = msg_empty_ack \/
     exists input, proc input = Some payload) /\
    (data_len = c_to_a_data_len (hdr m) ->
     data_ready cb env proc fuel m
       = acknowledge (send_data_to_creator cb env fuel payload m1)).
Proof.
  assert (core : exists m1 payload,
    process_data_from_creator cb proc data_len m = (m1, Some payload) /\
    ext m1 = ext m /\ hdr m1 = hdr m /\ same_globals m m1 /\
    (payload = msg_too_large \/ payload = msg_no_view \/
     payload = msg_processing_failed \/ payload = msg_empty_ack \/
     exists input, proc input = Some payload)).
  { unfold process_data_from_creator, get_buffer_view, same_globals.
    destruct (0 <? data_len)%N.
    - destruct (ACTUAL_C2A_BUFFER_SIZE m <? data_len)%N.
      + exists m, msg_too_large. repeat split; auto.
      + destruct (mmap_obj m && _).
        * destruct (proc (mmap_slice cb cb data_len m)) as [out|] eqn:P.
          -- eexists _, out. split; [reflexivity|]. repeat split.
             do 4 right. eexists. exact P.
          -- eexists _, msg_processing_failed. split; [reflexivity|]. repeat split.
             right; right; left; reflexivity.
        * exists m, msg_no_view. repeat split; auto.
    - exists m, msg_empty_ack. repeat split; auto 6. }
  destruct core as (m1 & payload & P & rest).
  exists m1, payload. split; [exact P|].
  destruct rest as (A & B & C & D). repeat split; try assumption; try apply C.
  intros ->. apply data_ready_after_process. exact P.
Qed.

(** X7: a message that fits the C2A buffer and the mapping is read from the
    start of the C2A buffer, exactly [data_len] bytes, and the processing
    block is called once on these bytes; its output is the payload, or the
    fixed message "Error during Python processing" when it raises. *)
Theorem in_range_message_is_processed cb proc data_len m :
  (0 < data_len <= ACTUAL_C2A_BUFFER_SIZE m)%N ->
  mmap_obj m = true ->
  (cb + data_len <= mmap_size cb m)%N ->
  let input_bytes := firstn (N.to_nat data_len) (buffers (ext m)) in
  List.length input_bytes = N.to_nat data_len /\
  exists m1,
    process_data_from_creator cb proc data_len m
      = (m1, Some match proc input_bytes with
                  | Some response_data => response_data
                  | None => msg_processing_failed
                  end) /\
    events m1 = events m ++ [EvReadC2A cb data_len; EvProcess input_bytes].
Proof.
  intros [Hpos Hcap] Hm Hb input_bytes.
  assert (S : mmap_slice cb cb data_len m = input_bytes).
  { unfold mmap_slice, input_bytes. now rewrite N.sub_diag. }
  split.
  - rewrite <- S. apply mmap_slice_length; [lia | exact Hb].
  - unfold process_data_from_creator, get_buffer_view.
    apply N.ltb_lt in Hpos. rewrite Hpos.
    replace (ACTUAL_C2A_BUFFER_SIZE m <? data_len)%N with false
      by (symmetry; apply N.ltb_ge; exact Hcap).
    apply N.leb_le in Hb. rewrite Hm, Hb. cbn [andb]. rewrite S.
    destruct (proc input_bytes); eexists; (split; [reflexivity|]);
      rewrite !events_record, <- app_assoc; reflexivity.
Qed.

Lemma in_range_message_is_processed_witness :
  let m := attached (SHM 1 10 0 0 64 64) 128 in
  (0 < 10 <= ACTUAL_C2A_BUFFER_SIZE m)%N /\ mmap_obj m = true /\
  (lp64_block + 10 <= mmap_size lp64_block m)%N /\
  exists m1,
    process_data_from_creator lp64_block gradient_processing 10 m
      = (m1, Some gradient_image) /\
    events m1 = [EvReadC2A 136 10; EvProcess (repeat "000"%byte 10)].
Proof.
  intro m.
  assert (H1 : (0 < 10 <= ACTUAL_C2A_BUFFER_SIZE m)%N) by (vm_compute; split; [reflexivity | discriminate]).
  assert (H2 : mmap_obj m = true) by reflexivity.
  assert (H3 : (lp64_block + 10 <= mmap_size lp64_block m)%N) by (vm_compute; discriminate).
  split; [exact H1|]. split; [exact H2|]. split; [exact H3|].
  destruct (in_range_message_is_processed lp64_block gradient_processing 10 m H1 H2 H3)
    as (_ & m1 & P & Ev).
  exists m1. split; [exact P | exact Ev].
Defined.

(** X8: when the declared length is within the C2A capacity but the mapping
    is too short for it (or there is no mapping), nothing is read and the
    processing block is not called: the answer is the fixed message
    "Error: Failed to get C2A buffer view" and the state is untouched. *)
Theorem message_beyond_the_mapping_is_refused cb proc data_len m :
  (0 < data_len <= ACTUAL_C2A_BUFFER_SIZE m)%N ->
  mmap_obj m = false \/ (mmap_size cb m < cb + data_len)%N ->
  process_data_from_creator cb proc data_len m = (m, Some msg_no_view).
Proof.
  intros [Hpos Hcap] Hbad. unfold process_data_from_creator, get_buffer_view.
  apply N.ltb_lt in Hpos. rewrite Hpos.
  replace (ACTUAL_C2A_BUFFER_SIZE m <? data_len)%N with false
    by (symmetry; apply N.ltb_ge; exact Hcap).
  destruct Hbad as [Hm|Hb].
  - rewrite Hm. reflexivity.
  - replace (cb + data_len <=? mmap_size cb m)%N with false
      by (symmetry; apply N.leb_gt; exact Hb).
    rewrite andb_false_r. reflexivity.
Qed.

Lemma message_beyond_the_mapping_is_refused_witness :
  let m := attached (SHM 1 10 0 0 64 64) 5 in
  (0 < 10 <= ACTUAL_C2A_BUFFER_SIZE m)%N /\
  (mmap_size lp64_block m < lp64_block + 10)%N /\
  process_data_from_creator lp64_block gradient_processing 10 m = (m, Some msg_no_view).
Proof.
  intro m.
  assert (H1 : (0 < 10 <= ACTUAL_C2A_BUFFER_SIZE m)%N) by (vm_compute; split; [reflexivity | discriminate]).
  assert (H2 : (mmap_size lp64_block m < lp64_block + 10)%N) by (vm_compute; reflexivity).
  split; [exact H1|]. split; [exact H2|].
  exact (message_beyond_the_mapping_is_refused lp64_block gradient_processing 10 m
           H1 (or_intror H2)).
Defined.

(** *** More on the respond operation *)
Section RespondMore.

Variable cb : N.
Variable env : nat -> world -> world.

Lemma ext_upd_hdr f m :
  buffers (ext (upd_hdr f m)) = buffers (ext m) /\
  running (ext (upd_hdr f m)) = running (ext m) /\
  now (ext (upd_hdr f m)) = now (ext m) /\
  same_globals m (upd_hdr f m).
Proof. unfold upd_hdr, same_globals. destruct (shm_struct m); cbn; tauto. Qed.

Lemma signal_error_keeps m :
  buffers (ext (signal_error m)) = buffers (ext m) /\
  running (ext (signal_error m)) = running (ext m) /\
  same_globals m (signal_error m).
Proof.
  unfold signal_error, set_a_to_c_status, set_a_to_c_data_len, same_globals.
  destruct (ext_upd_hdr (with_a_to_c_data_len 0) m) as (B1 & R1 & _ & G1).
  destruct (ext_upd_hdr (with_a_to_c_status (-1))
              (record (EvSetA2CDataLen 0) (upd_hdr (with_a_to_c_data_len 0) m)))
    as (B2 & R2 & _ & G2).
  unfold same_globals in *. cbn [record with_log ext shm_fd mmap_obj
    ACTUAL_C2A_BUFFER_SIZE ACTUAL_A2C_BUFFER_SIZE] in *.
  rewrite B2, R2, B1, R1.
  destruct G1 as (a & b & c & d), G2 as (a' & b' & c' & d').
  rewrite a', b', c', d', a, b, c, d. tauto.
Qed.

Lemma publish_keeps n m :
  buffers (ext (publish n m)) = buffers (ext m) /\
  running (ext (publish n m)) = running (ext m) /\
  same_globals m (publish n m).
Proof.
  unfold publish, set_a_to_c_status, set_a_to_c_data_len, same_globals.
  destruct (ext_upd_hdr (with_a_to_c_data_len n) (record EvFlush m)) as (B1 & R1 & _ & G1).
  destruct (ext_upd_hdr (with_a_to_c_status 1)
              (record (EvSetA2CDataLen n)
                 (upd_hdr (with_a_to_c_data_len n) (record EvFlush m))))
    as (B2 & R2 & _ & G2).
  unfold same_globals in *. cbn [record with_log ext shm_fd mmap_obj
    ACTUAL_C2A_BUFFER_SIZE ACTUAL_A2C_BUFFER_SIZE] in *.
  rewrite B2, R2, B1, R1.
  destruct G1 as (a & b & c & d), G2 as (a' & b' & c' & d').
  rewrite a', b', c', d', a, b, c, d. tauto.
Qed.

(** The bytes of the mapping after a write that passed the bounds check. *)
Lemma mmap_write_buffers c2a data m m2 :
  mmap_write cb (cb + c2a) data m = Some m2 ->
  let i := N.to_nat c2a in
  buffers (ext m2)
    = firstn i (buffers (ext m)) ++ data
      ++ skipn (i + List.length data) (buffers (ext m)) /\
  (i + List.length data <= List.length (buffers (ext m)))%nat /\
  running (ext m2) = running (ext m) /\ same_globals m m2.
Proof.
  intro H. pose proof (mmap_write_some cb _ _ _ _ H) as Hb.
  unfold mmap_write in H. apply N.leb_le in Hb. rewrite Hb in H.
  apply (f_equal (fun o => match o with Some x => x | None => m end)) in H.
  cbv beta iota in H. subst m2. apply N.leb_le in Hb.
  unfold mmap_size, same_globals in *.
  cbn [record with_log with_ext ext with_buffers buffers running shm_fd mmap_obj
       ACTUAL_C2A_BUFFER_SIZE ACTUAL_A2C_BUFFER_SIZE].
  replace (cb + c2a - cb)%N with c2a by lia.
  repeat split. lia.
Qed.

Lemma read_back_written (b data : list byte) i :
  (i + List.length data <= List.length b)%nat ->
  let b' := firstn i b ++ data ++ skipn (i + List.length data) b in
  firstn (List.length data) (skipn i b') = data /\
  firstn i b' = firstn i b /\
  skipn (i + List.length data) b' = skipn (i + List.length data) b /\
  List.length b' = List.length b.
Proof.
  intros H b'. unfold b'.
  assert (Li : List.length (firstn i b) = i) by (rewrite length_firstn; lia).
  repeat split.
  - rewrite skipn_app, Li, Nat.sub_diag, skipn_all2 by lia. cbn [skipn app].
    rewrite firstn_app, Nat.sub_diag, firstn_all. cbn [firstn]. apply app_nil_r.
  - rewrite firstn_app, Li, Nat.sub_diag. cbn [firstn].
    rewrite app_nil_r. apply firstn_all2. lia.
  - rewrite skipn_app, Li, skipn_all2 by lia. cbn [app].
    rewrite skipn_app.
    replace (i + List.length data - i)%nat with (List.length data) by lia.
    rewrite skipn_all, Nat.sub_diag. reflexivity.
  - rewrite !length_app, Li, length_skipn. lia.
Qed.

(** X9: after a respond that succeeded, the A2C buffer holds the response:
    reading [len(data_bytes)] bytes of the mapping at the A2C offset gives
    back the bytes that were sent. *)
Theorem sent_response_reads_back fuel data m m' :
  send_data_to_creator cb env fuel data m = Done m' true ->
  mmap_slice cb (cb + ACTUAL_C2A_BUFFER_SIZE m) (N.of_nat (List.length data)) m'
    = data.
Proof.
  intro H.
  pose proof (send_data_to_creator_outcome cb env fuel data m) as O.
  rewrite H in O. inversion O as [ | | | | | | k m2 Hk Hf Hs Hb Hw Heq ]; subst.
  destruct (mmap_write_buffers _ _ _ _ Hw) as (B & L & _ & _).
  destruct (publish_keeps (N.of_nat (List.length data)) m2) as (P & _ & _).
  unfold mmap_slice. rewrite P, B.
  replace (cb + ACTUAL_C2A_BUFFER_SIZE m - cb)%N with (ACTUAL_C2A_BUFFER_SIZE m) by lia.
  rewrite Nat2N.id.
  exact (proj1 (read_back_written _ data _ L)).
Qed.

(** X10: a respond that succeeded changed the bytes of the A2C range
    [offset, offset + len(data_bytes)) only: the C2A buffer before it and the
    bytes after it are as they were when the status was found 0, and the
    mapping has the same size. *)
Theorem sent_response_touches_its_range_only fuel data m m' :
  send_data_to_creator cb env fuel data m = Done m' true ->
  exists k,
    let m1 := sleeps env k m in
    let c2a := ACTUAL_C2A_BUFFER_SIZE m in
    let past := (N.to_nat c2a + List.length data)%nat in
    mmap_slice cb cb c2a m' = mmap_slice cb cb c2a m1 /\
    skipn past (buffers (ext m')) = skipn past (buffers (ext m1)) /\
    mmap_size cb m' = mmap_size cb m1.
Proof.
  intro H.
  pose proof (send_data_to_creator_outcome cb env fuel data m) as O.
  rewrite H in O. inversion O as [ | | | | | | k m2 Hk Hf Hs Hb Hw Heq ]; subst.
  exists k. cbv zeta.
  destruct (mmap_write_buffers _ _ _ _ Hw) as (B & L & _ & _).
  destruct (publish_keeps (N.of_nat (List.length data)) m2) as (P & _ & _).
  destruct (read_back_written _ data _ L) as (_ & F & S & Len).
  unfold mmap_slice, mmap_size. rewrite P, B, N.sub_diag. cbn [N.to_nat skipn].
  split; [exact F|]. split; [exact S|]. now rewrite Len.
Qed.

Lemma same_globals_trans m1 m2 m3 :
  same_globals m1 m2 -> same_globals m2 m3 -> same_globals m1 m3.
Proof.
  unfold same_globals. intros (a & b & c & d) (a' & b' & c' & d').
  rewrite a', b', c', d'. tauto.
Qed.

Lemma same_globals_refl m : same_globals m m.
Proof. unfold same_globals. tauto. Qed.

Lemma sleeps_same_globals k m : same_globals m (sleeps env k m).
Proof.
  destruct (sleeps_globals env k m) as (a & b & c & d & _).
  unfold same_globals. tauto.
Qed.

(** X11: whatever the outcome, the respond operation changes nothing in
    the Creator's half of the control block, in the declared sizes, in the
    [running] flag or in the globals, and it touches the A2C fields and the
    mapped bytes only from a state in which it read [a_to_c_status == 0]:
    a response the Creator has not taken yet is never overwritten. *)
Theorem respond_writes_only_after_status_zero fuel data m :
  exists k, (k <= fuel)%nat /\
    let m1 := sleeps env k m in
    let m' := state_of (send_data_to_creator cb env fuel data m) in
    c_to_a_command (hdr m') = c_to_a_command (hdr m1) /\
    c_to_a_data_len (hdr m') = c_to_a_data_len (hdr m1) /\
    defined_c2a_buffer_size (hdr m') = defined_c2a_buffer_size (hdr m1) /\
    defined_a2c_buffer_size (hdr m') = defined_a2c_buffer_size (hdr m1) /\
    running (ext m') = running (ext m1) /\
    same_globals m m' /\
    ((hdr m' = hdr m1 /\ buffers (ext m') = buffers (ext m1)) \/
     a_to_c_status (hdr m1) = 0).
Proof.
  destruct (send_data_to_creator_outcome cb env fuel data m)
    as [H | B | k Hk | k Hk Hf Hs | k Hk Hf Hs Hb | k Hk Hb Hs Hr | k m2 Hk Hf Hs Hb Hw];
    cbn [state_of].
  - exists O. split; [lia|]. cbn [sleeps]. repeat split; auto using same_globals_refl.
  - exists fuel. split; [lia|].
    destruct (sleeps_globals env fuel m) as (a & b & c & d & _).
    repeat split; auto.
  - exists k. split; [exact Hk|].
    destruct (sleeps_globals env k m) as (a & b & c & d & _).
    repeat split; auto.
  - exists k. split; [exact Hk|].
    destruct (sleeps_globals env k m) as (a & b & c & d & _).
    repeat split; auto.
  - exists k. split; [exact Hk|].
    destruct (sleeps_globals env k m) as (a & b & c & d & _).
    repeat split; auto.
  - exists k. split; [exact Hk|]. cbv zeta.
    destruct (signal_error_log (sleeps env k m)) as [_ Hh].
    destruct (signal_error_keeps (sleeps env k m)) as (_ & R & G).
    rewrite Hh, R. repeat split; auto.
    + exact (proj1 (same_globals_trans _ _ _ (sleeps_same_globals k m) G)).
    + exact (proj1 (proj2 (same_globals_trans _ _ _ (sleeps_same_globals k m) G))).
    + exact (proj1 (proj2 (proj2 (same_globals_trans _ _ _ (sleeps_same_globals k m) G)))).
    + exact (proj2 (proj2 (proj2 (same_globals_trans _ _ _ (sleeps_same_globals k m) G)))).
  - exists k. split; [exact Hk|]. cbv zeta.
    destruct (publish_log cb _ _ _ _ Hw) as [_ Hh].
    destruct (publish_keeps (N.of_nat (List.length data)) m2) as (_ & R & G).
    destruct (mmap_write_buffers _ _ _ _ Hw) as (_ & _ & R' & G').
    pose proof (same_globals_trans _ _ _ (sleeps_same_globals k m)
                  (same_globals_trans _ _ _ G' G)) as GG.
    rewrite Hh, R, R'. repeat split; auto; apply GG.
Qed.

(** X12: a response larger than the A2C buffer is never reported as sent
    and none of its bytes is written.  The operation either returns with the
    state untouched, on a shutdown request, or signals the error from a
    state with status 0, setting [a_to_c_data_len = 0] first and
    [a_to_c_status = -1] second. *)
Theorem oversize_response_signals_error fuel data m m' ok :
  shm_struct m <> NoStruct -> mmap_obj m = true ->
  (ACTUAL_A2C_BUFFER_SIZE m < N.of_nat (List.length data))%N ->
  send_data_to_creator cb env fuel data m = Done m' ok ->
  ok = false /\
  exists k,
    let m1 := sleeps env k m in
    (running (ext m1) = false /\ m' = m1) \/
    (running (ext m1) = true /\ a_to_c_status (hdr m1) = 0 /\
     log m' = log m1 ++
       [ (EvSetA2CDataLen 0, with_a_to_c_data_len 0 (hdr m1));
         (EvSetA2CStatus (-1),
            with_a_to_c_status (-1) (with_a_to_c_data_len 0 (hdr m1))) ] /\
     a_to_c_status (with_a_to_c_data_len 0 (hdr m1)) = 0 /\
     a_to_c_status (hdr m') = -1 /\ a_to_c_data_len (hdr m') = 0%N /\
     buffers (ext m') = buffers (ext m1)).
Proof.
  intros Hs Hm Hbig H. unfold send_data_to_creator in H.
  rewrite Hm in H. cbn [negb] in H.
  replace (match shm_struct m with NoStruct => true | _ => false end) with false in H
    by (destruct (shm_struct m); [congruence | reflexivity | reflexivity]).
  cbn [orb] in H. apply N.ltb_lt in Hbig. rewrite Hbig in H.
  destruct (wait_while_busy_spec env fuel m) as (k & _ & _ & [[E R]|[E _]]);
    rewrite E in H; [|discriminate].
  destruct (running (ext (sleeps env k m))) eqn:Hr; cbn [negb] in H.
  - destruct R as [R|R]; [|congruence].
    apply (f_equal (fun r => match r with Done x b => (x, b) | Spinning x => (x, ok) end)) in H.
    cbv beta iota in H. injection H as <- <-. split; [reflexivity|].
    exists k. right. cbv zeta.
    destruct (signal_error_log (sleeps env k m)) as [L Hh].
    destruct (signal_error_keeps (sleeps env k m)) as (B & _ & _).
    fold (signal_error (sleeps env k m)).
    rewrite Hh. repeat split; auto.
  - apply (f_equal (fun r => match r with Done x b => (x, b) | Spinning x => (x, ok) end)) in H.
    cbv beta iota in H. injection H as <- <-. split; [reflexivity|].
    exists k. left. split; [exact Hr | reflexivity].
Qed.

(** X14: a shutdown request cancels the respond operation before it acts:
    with [running] cleared by the signal handler, a response larger than the
    A2C buffer is dropped without the error signal, and a response that fits
    is dropped when the Creator still holds the status; in both cases the
    operation returns at once and leaves the state as it was. *)
Theorem shutdown_request_cancels_respond fuel data m :
  shm_struct m <> NoStruct -> mmap_obj m = true ->
  (ACTUAL_A2C_BUFFER_SIZE m < N.of_nat (List.length data))%N \/
    a_to_c_status (hdr m) <> 0 ->
  send_data_to_creator cb env fuel data (signalled m) = Done (signalled m) false.
Proof.
  intros Hs Hm Hcase. unfold send_data_to_creator.
  change (mmap_obj (signalled m)) with (mmap_obj m).
  change (shm_struct (signalled m)) with (shm_struct m).
  change (ACTUAL_A2C_BUFFER_SIZE (signalled m)) with (ACTUAL_A2C_BUFFER_SIZE m).
  rewrite Hm. cbn [negb].
  replace (match shm_struct m with NoStruct => true | _ => false end) with false
    by (destruct (shm_struct m); [congruence | reflexivity | reflexivity]).
  cbn [orb].
  assert (Hh : hdr (signalled m) = hdr m).
  { unfold hdr, signalled. cbn. destruct (shm_struct m); reflexivity. }
  destruct (N.ltb_spec (ACTUAL_A2C_BUFFER_SIZE m) (N.of_nat (List.length data)))
    as [Hbig|Hfit].
  - rewrite wait_while_busy_released by (right; reflexivity). reflexivity.
  - destruct Hcase as [Hbig|Hst]; [lia|].
    destruct fuel; cbn [wait_for_ack]; rewrite Hh;
      apply Z.eqb_neq in Hst; rewrite Hst; reflexivity.
Qed.

End RespondMore.
Lemma sent_response_reads_back_witness :
  let m := attached (SHM 1 0 0 400 64 64) 128 in
  let m' := state_of (send_data_to_creator lp64_block idle_creator 0 msg_empty_ack m) in
  send_data_to_creator lp64_block idle_creator 0 msg_empty_ack m = Done m' true /\
  mmap_slice lp64_block 200 34 m' = msg_empty_ack.
Proof.
  intros m m'.
  assert (H : send_data_to_creator lp64_block idle_creator 0 msg_empty_ack m = Done m' true)
    by (vm_compute; reflexivity).
  split; [exact H|].
  exact (sent_response_reads_back lp64_block idle_creator 0 msg_empty_ack m m' H).
Defined.

Lemma sent_response_touches_its_range_only_witness :
  let m := attached (SHM 1 0 0 400 64 64) 128 in
  let m' := state_of (send_data_to_creator lp64_block idle_creator 0 msg_empty_ack m) in
  send_data_to_creator lp64_block idle_creator 0 msg_empty_ack m = Done m' true /\
  mmap_slice lp64_block lp64_block 64 m' = repeat "000"%byte 64.
Proof.
  intros m m'.
  assert (H : send_data_to_creator lp64_block idle_creator 0 msg_empty_ack m = Done m' true)
    by (vm_compute; reflexivity).
  split; [exact H|].
  destruct (sent_response_touches_its_range_only lp64_block idle_creator 0
              msg_empty_ack m m' H) as (k & _).
  vm_compute. reflexivity.
Defined.


Lemma oversize_response_signals_error_witness :
  let m := attached (SHM 1 10 0 0 64 64) 128 in
  let m' := state_of (send_data_to_creator lp64_block idle_creator 0 gradient_image m) in
  shm_struct m <> NoStruct /\ mmap_obj m = true /\
  (ACTUAL_A2C_BUFFER_SIZE m < N.of_nat (List.length gradient_image))%N /\
  send_data_to_creator lp64_block idle_creator 0 gradient_image m = Done m' false /\
  events m' = [EvSetA2CDataLen 0; EvSetA2CStatus (-1)].
Proof.
  intros m m'.
  assert (H1 : shm_struct m <> NoStruct) by discriminate.
  assert (H2 : mmap_obj m = true) by reflexivity.
  assert (H3 : (ACTUAL_A2C_BUFFER_SIZE m < N.of_nat (List.length gradient_image))%N)
    by (vm_compute; reflexivity).
  assert (H4 : send_data_to_creator lp64_block idle_creator 0 gradient_image m
               = Done m' false) by (vm_compute; reflexivity).
  split; [exact H1|]. split; [exact H2|]. split; [exact H3|]. split; [exact H4|].
  destruct (oversize_response_signals_error lp64_block idle_creator 0 gradient_image
              m m' false H1 H2 H3 H4) as (_ & k & _).
  vm_compute. reflexivity.
Defined.

Lemma shutdown_request_cancels_respond_witness :
  let m := attached (SHM 1 10 1 29 64 64) 128 in
  shm_struct m <> NoStruct /\ mmap_obj m = true /\ a_to_c_status (hdr m) <> 0 /\
  send_data_to_creator lp64_block idle_creator 7 msg_too_large (signalled m)
    = Done (signalled m) false.
Proof.
  intro m.
  assert (H1 : shm_struct m <> NoStruct) by discriminate.
  assert (H2 : mmap_obj m = true) by reflexivity.
  assert (H3 : a_to_c_status (hdr m) <> 0) by discriminate.
  split; [exact H1|]. split; [exact H2|]. split; [exact H3|].
  exact (shutdown_request_cancels_respond lp64_block idle_creator 7 msg_too_large m
           H1 H2 (or_intror H3)).
Defined.

(** *** The deadline of the respond operation *)
Section Deadline.

Variable cb : N.
Variable env : nat -> world -> world.

Lemma clock_lower_bound :
  clock_advances env ->
  forall k m,
    (now (ext m) + inject_Z (Z.of_nat k) * (5 # 1000)
     <= now (ext (sleeps env k m)))%Q.
Proof.
  intros Hclock k. induction k as [|k IH]; intro m.
  - change (inject_Z (Z.of_nat 0)) with 0%Q.
    change (sleeps env 0 m) with m. lra.
  - rewrite sleeps_S.
    change (ext (sleep env (5 # 1000) (sleeps env k m)))
      with (env (ticks (sleeps env k m)) (ext (sleeps env k m))).
    pose proof (Hclock (ticks (sleeps env k m)) (ext (sleeps env k m))) as Hstep.
    pose proof (IH m) as Hk.
    rewrite Nat2Z.inj_succ. unfold Z.succ. rewrite inject_Z_plus.
    change (inject_Z 1) with 1%Q.
    generalize dependent (inject_Z (Z.of_nat k)). intros c Hk. lra.
Qed.

(** The wait ends at the latest at the first poll that finds the deadline
    passed. *)
Lemma wait_for_ack_deadline k limit start :
  forall m fuel,
    Qle_bool (now (ext (sleeps env k m)) - start) limit = false ->
    (k <= fuel)%nat ->
    exists j x, (j <= k)%nat /\
      wait_for_ack env fuel limit start m = Done (sleeps env j m) x.
Proof.
  induction k as [|k IH]; intros m fuel Hpast Hle.
  - exists O. cbn [sleeps] in Hpast.
    destruct fuel; cbn [wait_for_ack];
      (destruct (a_to_c_status (hdr m) =? 0); [exists Ready; auto|];
       destruct (running (ext m)); cbn [negb]; [|exists Stopped; auto];
       rewrite Hpast; cbn [negb]; exists TimedOut; auto).
  - destruct fuel as [|fuel]; [lia|]. cbn [wait_for_ack].
    destruct (a_to_c_status (hdr m) =? 0);
      [exists O, Ready; split; [lia | reflexivity]|].
    destruct (running (ext m)); cbn [negb];
      [|exists O, Stopped; split; [lia | reflexivity]].
    destruct (Qle_bool (now (ext m) - start) limit); cbn [negb];
      [|exists O, TimedOut; split; [lia | reflexivity]].
    destruct (IH (sleep env (5 # 1000) m) fuel Hpast ltac:(lia)) as (j & x & Hj & E).
    exists (S j), x. split; [lia | exact E].
Qed.

(** X13: with a clock that moves on by at least 5 ms per sleep, the respond
    operation for a response that fits the A2C buffer returns after at most
    1001 polls, whatever the Creator does: it has either published the
    response or given up without writing. *)
Theorem fitting_respond_returns_by_deadline fuel data m :
  clock_advances env ->
  (N.of_nat (List.length data) <= ACTUAL_A2C_BUFFER_SIZE m)%N ->
  (1001 <= fuel)%nat ->
  exists m' ok k,
    send_data_to_creator cb env fuel data m = Done m' ok /\
    (k <= 1001)%nat /\
    events m' = events m ++ repeat (EvSleep (5 # 1000)) k ++
      (if ok then [EvWriteA2C (cb + ACTUAL_C2A_BUFFER_SIZE m) data; EvFlush;
                   EvSetA2CDataLen (N.of_nat (List.length data)); EvSetA2CStatus 1]
       else []).
Proof.
  intros Hclock Hfit Hfuel. unfold send_data_to_creator.
  destruct (_ || _).
  { exists m, false, O. split; [reflexivity|]. split; [lia|].
    cbn [repeat app]. now rewrite app_nil_r. }
  apply N.ltb_ge in Hfit. rewrite Hfit.
  assert (Hpast : Qle_bool (now (ext (sleeps env 1001 m)) - now (ext m)) 5 = false).
  { destruct (Qle_bool _ 5) eqn:E; [|reflexivity].
    apply Qle_bool_iff in E.
    pose proof (clock_lower_bound Hclock 1001 m) as Hlow.
    change (inject_Z (Z.of_nat 1001)) with (1001 # 1)%Q in Hlow.
    exfalso. lra. }
  destruct (wait_for_ack_deadline 1001 5 (now (ext m)) m fuel Hpast Hfuel)
    as (j & x & Hj & E).
  rewrite E.
  assert (quiet : events (sleeps env j m)
                  = events m ++ repeat (EvSleep (5 # 1000)) j ++ []).
  { rewrite app_nil_r. apply sleeps_events. }
  destruct x.
  - match goal with |- context [(?a <? ?b)%N] => destruct (N.ltb_spec a b) as [Hout|Hin] end.
    + exists (sleeps env j m), false, j. auto.
    + destruct (mmap_write_inside cb _ data _ Hin) as (m2 & Ew & _).
      rewrite Ew. eexists _, true, j. split; [reflexivity|]. split; [exact Hj|].
      fold (publish (N.of_nat (List.length data)) m2).
      rewrite (events_publish cb _ _ _ _ Ew), sleeps_events, <- app_assoc. reflexivity.
  - exists (sleeps env j m), false, j. auto.
  - exists (sleeps env j m), false, j. auto.
Qed.

End Deadline.

Lemma fitting_respond_returns_by_deadline_witness :
  let m := attached (SHM 1 10 1 29 64 64) 128 in
  clock_advances ticking_creator /\
  (N.of_nat (List.length msg_too_large) <= ACTUAL_A2C_BUFFER_SIZE m)%N /\
  exists m' ok k,
    send_data_to_creator lp64_block ticking_creator 1001 msg_too_large m = Done m' ok /\
    (k <= 1001)%nat.
Proof.
  intro m.
  assert (H1 : clock_advances ticking_creator)
    by (intros k w; cbn [ticking_creator now]; apply Qle_refl).
  assert (H2 : (N.of_nat (List.length msg_too_large) <= ACTUAL_A2C_BUFFER_SIZE m)%N)
    by (vm_compute; discriminate).
  split; [exact H1|]. split; [exact H2|].
  destruct (fitting_respond_returns_by_deadline lp64_block ticking_creator 1001
              msg_too_large m H1 H2 (le_n 1001)) as (m' & ok & k & E & Hk & _).
  exists m', ok, k. split; [exact E | exact Hk].
Defined.

(** *** The polling loop as a whole *)
Section Loop.

Variable cb : N.
Variable env : nat -> world -> world.
Variable example_processing : list byte -> option (list byte).
Variable os : os_calls.

Lemma inbound_is_polling l :
  forallb inbound_event l = true -> forallb polling_event l = true.
Proof.
  induction l as [|e l IH]; [reflexivity|]. cbn [forallb].
  intro H. apply andb_true_iff in H. destruct H as [He Hl].
  rewrite (IH Hl), andb_true_r. destruct e; try discriminate He; reflexivity.
Qed.

Lemma set_c_to_a_command_keeps c m :
  same_globals m (set_c_to_a_command c m) /\
  running (ext (set_c_to_a_command c m)) = running (ext m).
Proof.
  unfold set_c_to_a_command.
  destruct (ext_upd_hdr (with_c_to_a_command c) m) as (_ & R & _ & G).
  split; [exact G | exact R].
Qed.

(** What the respond operation leaves in the log and in the globals. *)
Lemma send_footprint fuel data m :
  exists sent,
    events (state_of (send_data_to_creator cb env fuel data m)) = events m ++ sent /\
    forallb polling_event sent = true /\
    same_globals m (state_of (send_data_to_creator cb env fuel data m)).
Proof.
  destruct (send_data_to_creator_outcome cb env fuel data m)
    as [H | B | k Hk | k Hk Hf Hs | k Hk Hf Hs Hb | k Hk Hb Hs Hr | k m2 Hk Hf Hs Hb Hw];
    cbn [state_of].
  - exists []. rewrite app_nil_r. repeat split.
  - exists (repeat (EvSleep (5 # 1000)) fuel).
    split; [apply sleeps_events|]. split; [now apply forallb_repeat|].
    apply sleeps_same_globals.
  - exists (repeat (EvSleep (5 # 1000)) k).
    split; [apply sleeps_events|]. split; [now apply forallb_repeat|].
    apply sleeps_same_globals.
  - exists (repeat (EvSleep (5 # 1000)) k).
    split; [apply sleeps_events|]. split; [now apply forallb_repeat|].
    apply sleeps_same_globals.
  - exists (repeat (EvSleep (5 # 1000)) k).
    split; [apply sleeps_events|]. split; [now apply forallb_repeat|].
    apply sleeps_same_globals.
  - exists (repeat (EvSleep (5 # 1000)) k ++ [EvSetA2CDataLen 0; EvSetA2CStatus (-1)]).
    split; [|split].
    + now rewrite events_signal_error, sleeps_events, app_assoc.
    + rewrite forallb_app, forallb_repeat; reflexivity.
    + exact (same_globals_trans _ _ _ (sleeps_same_globals env k m)
               (proj2 (proj2 (signal_error_keeps _)))).
  - exists (repeat (EvSleep (5 # 1000)) k ++
            [EvWriteA2C (cb + ACTUAL_C2A_BUFFER_SIZE m) data; EvFlush;
             EvSetA2CDataLen (N.of_nat (List.length data)); EvSetA2CStatus 1]).
    split; [|split].
    + now rewrite (events_publish cb _ _ _ _ Hw), sleeps_events, app_assoc.
    + rewrite forallb_app, forallb_repeat; reflexivity.
    + destruct (mmap_write_buffers cb _ _ _ _ Hw) as (_ & _ & _ & G').
      exact (same_globals_trans _ _ _ (sleeps_same_globals env k m)
               (same_globals_trans _ _ _ G' (proj2 (proj2 (publish_keeps _ _))))).
Qed.

Lemma data_ready_footprint fuel m :
  exists evs,
    events (state_of (data_ready cb env example_processing fuel m)) = events m ++ evs /\
    forallb polling_event evs = true /\
    same_globals m (state_of (data_ready cb env example_processing fuel m)).
Proof.
  destruct (process_data_from_creator_total cb example_processing
              (c_to_a_data_len (hdr m)) m) as (inbound & payload & P & Fi).
  rewrite (data_ready_after_process cb env example_processing fuel m _ payload P).
  destruct (send_footprint fuel payload (with_log (log m ++ inbound) m))
    as (sent & E & F & G).
  assert (E0 : events (with_log (log m ++ inbound) m) = events m ++ map fst inbound)
    by (unfold events; cbn [log with_log]; now rewrite map_app).
  rewrite E0 in E.
  destruct (send_data_to_creator cb env fuel payload (with_log (log m ++ inbound) m))
    as [m2 ok|m2]; cbn [acknowledge state_of] in *.
  - exists (map fst inbound ++ sent ++ [EvSetC2ACommand 0]). split; [|split].
    + rewrite events_set_c_to_a_command, E, <- !app_assoc. reflexivity.
    + rewrite !forallb_app, (inbound_is_polling _ Fi), F. reflexivity.
    + exact (same_globals_trans _ _ _ G (proj1 (set_c_to_a_command_keeps 0 m2))).
  - exists (map fst inbound ++ sent). split; [|split].
    + rewrite E, <- app_assoc. reflexivity.
    + now rewrite forallb_app, (inbound_is_polling _ Fi), F.
    + exact G.
Qed.

Lemma polling_loop_footprint rounds fuel : forall m,
  exists evs,
    events (state_of (polling_loop cb env example_processing rounds fuel m))
      = events m ++ evs /\
    forallb polling_event evs = true /\
    same_globals m (state_of (polling_loop cb env example_processing rounds fuel m)).
Proof.
  induction rounds as [|rounds IH]; intro m.
  - cbn [polling_loop]. exists []. rewrite app_nil_r.
    destruct (running (ext m)); cbn [state_of]; repeat split.
  - cbn [polling_loop].
    destruct (running (ext m)); cbn [negb];
      [|exists []; rewrite app_nil_r; cbn [state_of]; repeat split].
    destruct (c_to_a_command (hdr m) =? 1).
    { destruct (data_ready_footprint fuel m) as (evs & E & F & G).
      destruct (data_ready cb env example_processing fuel m) as [m1 u|m1];
        cbn [state_of] in *.
      - destruct (IH m1) as (evs' & E' & F' & G').
        exists (evs ++ evs'). split; [|split].
        + now rewrite E', E, app_assoc.
        + now rewrite forallb_app, F, F'.
        + exact (same_globals_trans _ _ _ G G').
      - exists evs. auto. }
    destruct (c_to_a_command (hdr m) =? 99).
    { exists [EvSetC2ACommand 0; EvStop]. cbn [state_of]. split; [|split].
      - unfold stop. rewrite events_record. unfold events at 1. cbn [log with_ext].
        fold (events (set_c_to_a_command 0 m)).
        rewrite events_set_c_to_a_command, <- app_assoc. reflexivity.
      - reflexivity.
      - exact (proj1 (set_c_to_a_command_keeps 0 m)). }
    destruct (c_to_a_command (hdr m) =? 0).
    { destruct (IH (sleep env (5 # 1000) m)) as (evs' & E' & F' & G').
      exists (EvSleep (5 # 1000) :: evs'). split; [|split].
      - rewrite E', (events_sleep env), <- app_assoc. reflexivity.
      - cbn [forallb polling_event andb]. exact F'.
      - exact G'. }
    destruct (IH (sleep env (1 # 100) (set_c_to_a_command 0 m))) as (evs' & E' & F' & G').
    exists (EvSetC2ACommand 0 :: EvSleep (1 # 100) :: evs'). split; [|split].
    + rewrite E', (events_sleep env), events_set_c_to_a_command, <- !app_assoc.
      reflexivity.
    + cbn [forallb polling_event andb Z.eqb]. exact F'.
    + exact (same_globals_trans _ _ _ (proj1 (set_c_to_a_command_keeps 0 m)) G').
Qed.


(** X15: in any run of the polling loop the Acceptor keeps to its part of
    the protocol: it opens and closes nothing, the only value it ever writes
    to [c_to_a_command] is 0, the only values it writes to [a_to_c_status]
    are 1 and -1, and the descriptor, the mapping and the two buffer sizes
    read at start-up stay as they were. *)
Theorem polling_loop_keeps_to_its_part rounds fuel m :
  let m' := state_of (polling_loop cb env example_processing rounds fuel m) in
  same_globals m m' /\
  exists evs, events m' = events m ++ evs /\ forallb polling_event evs = true.
Proof.
  destruct (polling_loop_footprint rounds fuel m) as (evs & E & F & G).
  split; [exact G|]. exists evs. split; [exact E | exact F].
Qed.

(** With no command and no shutdown request at any poll, every round of
    the loop is a sleep of 5 ms. *)
Lemma idle_rounds rounds fuel : forall m,
  (forall k, (k <= rounds)%nat ->
     c_to_a_command (hdr (sleeps env k m)) = 0 /\
     running (ext (sleeps env k m)) = true) ->
  polling_loop cb env example_processing rounds fuel m
    = Spinning (sleeps env rounds m).
Proof.
  induction rounds as [|rounds IH]; intros m H.
  - destruct (H O (le_n 0)) as [_ R]. cbn [sleeps] in *. cbn [polling_loop].
    now rewrite R.
  - destruct (H O ltac:(lia)) as [C R]. cbn [sleeps] in C, R.
    cbn [polling_loop]. rewrite R, C. cbn [negb Z.eqb].
    rewrite IH; [reflexivity|].
    intros k Hk. apply (H (S k)). lia.
Qed.

(** X17: while the Creator posts nothing and no shutdown is asked for, the
    loop does nothing but sleep 5 ms per round: it writes no field and no
    byte of the segment. *)
Theorem idle_loop_only_sleeps rounds fuel m :
  (forall k, (k <= rounds)%nat ->
     c_to_a_command (hdr (sleeps env k m)) = 0 /\
     running (ext (sleeps env k m)) = true) ->
  polling_loop cb env example_processing rounds fuel m
    = Spinning (sleeps env rounds m) /\
  events (sleeps env rounds m) = events m ++ repeat (EvSleep (5 # 1000)) rounds.
Proof.
  intro H. split; [now apply idle_rounds | apply sleeps_events].
Qed.

(** X18: when the control block is the private copy made by
    [from_buffer_copy], the loop reads its commands from the copy: with no
    command in the copy it only sleeps, round after round, whatever the
    Creator posts in the segment, and the copy stays as it was. *)
Theorem copied_control_block_sees_no_command rounds fuel m s :
  shm_struct m = Snapshot s -> c_to_a_command s = 0 ->
  (forall k, (k <= rounds)%nat -> running (ext (sleeps env k m)) = true) ->
  polling_loop cb env example_processing rounds fuel m
    = Spinning (sleeps env rounds m) /\
  hdr (sleeps env rounds m) = s /\
  events (sleeps env rounds m) = events m ++ repeat (EvSleep (5 # 1000)) rounds.
Proof.
  intros Hs Hc Hr.
  assert (Hh : forall k, hdr (sleeps env k m) = s).
  { intro k. destruct (sleeps_globals env k m) as (_ & _ & _ & _ & E).
    unfold hdr. now rewrite E, Hs. }
  split; [|split; [apply Hh | apply sleeps_events]].
  apply idle_rounds. intros k Hk. rewrite Hh. split; [exact Hc | now apply Hr].
Qed.




End Loop.

(** *** How [main_loop] starts and ends *)
Section Outcomes.

Variable cb : N.
Variable env : nat -> world -> world.
Variable example_processing : list byte -> option (list byte).
Variable os : os_calls.

Lemma attach_and_map_view m0 m :
  attach_and_map env os m0 = Proceed m ->
  (from_buffer_raises os = false /\ shm_struct m = InPlace) \/
  (from_buffer_raises os = true /\ exists s, shm_struct m = Snapshot s).
Proof.
  unfold attach_and_map. intro H.
  destruct (open_segment env os (seq 0 attach_attempts) (1 # 10) (with_shm_fd (-1) m0))
    as [m1|m1 code|m1 e]; cbn [and_then] in H; [|discriminate|discriminate].
  unfold map_segment in H.
  destruct (fstat_raises os); [discriminate|].
  destruct (mmap_raises os); [discriminate|].
  cbn [and_then] in H. unfold map_control_structure, close_and_exit in H.
  destruct (from_buffer_raises os).
  - destruct (from_buffer_copy_raises os); [destruct (_ && _); discriminate|].
    injection H as <-. right. split; [reflexivity|]. eexists. reflexivity.
  - destruct (mmap_too_short os); [discriminate|].
    injection H as <-. left. split; reflexivity.
Qed.


(** *** The record in view and the call of [mmap_obj.close()] *)











(** The two ways the closing handlers of start-up end. *)
Lemma close_and_exit_cases m :
  (mmap_obj m = true /\ close_raises m = true /\
   close_and_exit os m = Raises (record EvCloseMmap m) BufferError) \/
  ((mmap_obj m = false \/ close_raises m = false) /\
   close_and_exit os m = Fatal (close_fd os (close_mmap m)) 1).
Proof.
  unfold close_and_exit.
  destruct (mmap_obj m); destruct (close_raises m); cbn [andb]; auto.
Qed.





(** A zero in a declared buffer size, with the record in place or with a
    copy of it. *)
Lemma initialise_zero_size m0 m :
  attach_and_map env os m0 = Proceed m ->
  defined_c2a_buffer_size (hdr m) = 0%N \/ defined_a2c_buffer_size (hdr m) = 0%N ->
  initialise env os m0
    = close_and_exit os (with_actual_sizes (defined_c2a_buffer_size (hdr m))
                                           (defined_a2c_buffer_size (hdr m)) m).
Proof.
  intros Ha Hzero. unfold initialise. rewrite Ha. cbn [and_then].
  unfold read_defined_sizes.
  cbn [with_actual_sizes ACTUAL_C2A_BUFFER_SIZE ACTUAL_A2C_BUFFER_SIZE].
  replace ((defined_c2a_buffer_size (hdr m) <=? 0)%N
           || (defined_a2c_buffer_size (hdr m) <=? 0)%N) with true; [reflexivity|].
  destruct Hzero as [Z0|Z0]; rewrite Z0; cbn; [reflexivity|].
  now rewrite orb_true_r.
Qed.

(** C8: a zero in either declared buffer size ends start-up before any
    polling, but not as its handler is written.  With the record laid over
    the mapping by [from_buffer], which is what start-up does whenever that
    call succeeds, the handler's call of [mmap_obj.close()] raises
    [BufferError]: the exception leaves [main_loop], whatever the loop
    bounds, and neither [c_close(shm_fd)] nor [sys.exit(1)] is reached, so
    the descriptor opened at start-up stays open and the last action is the
    failed call.  Only with the record copied by [from_buffer_copy] does the
    handler do all three steps: the mapping is closed, then the descriptor,
    and [main_loop] ends with [sys.exit(1)]. *)
Theorem zero_buffer_size_leaves_descriptor_open rounds fuel m0 m :
  attach_and_map env os m0 = Proceed m ->
  defined_c2a_buffer_size (hdr m) = 0%N \/ defined_a2c_buffer_size (hdr m) = 0%N ->
  exists m' attaching,
    events m = events m0 ++ attaching /\
    forallb attach_event attaching = true /\
    shm_fd m' = shm_fd m /\ shm_fd m <> -1 /\ hdr m' = hdr m /\
    (from_buffer_raises os = false ->
       main_loop cb env example_processing os rounds fuel m0
         = Done m' (Uncaught BufferError) /\
       events m' = events m ++ [EvCloseMmap]) /\
    (from_buffer_raises os = true -> c_close os = true ->
       main_loop cb env example_processing os rounds fuel m0
         = Done m' (SysExit 1) /\
       events m' = events m ++ [EvCloseMmap; EvCloseFd (shm_fd m)]).
Proof.
  intros Ha Hzero.
  destruct (attach_and_map_proceeds env os m0 m Ha) as (Hfd & Hm & _ & evs & Hev & Hall).
  pose proof (initialise_zero_size m0 m Ha Hzero) as Hi.
  set (m1 := with_actual_sizes (defined_c2a_buffer_size (hdr m))
                               (defined_a2c_buffer_size (hdr m)) m) in *.
  assert (E1 : events m1 = events m) by reflexivity.
  assert (F1 : shm_fd m1 = shm_fd m) by reflexivity.
  assert (H1 : hdr m1 = hdr m) by reflexivity.
  destruct (attach_and_map_view m0 m Ha) as [(Tb & V)|(Tb & s & V)].
  - exists (record EvCloseMmap m1), evs.
    split; [exact Hev|]. split; [exact Hall|]. split; [exact F1|].
    split; [exact Hfd|]. split; [now rewrite hdr_record|].
    split; [|intro C; congruence].
    intros _. unfold main_loop. rewrite Hi.
    destruct (close_and_exit_cases m1) as [(_ & _ & C)|([C|C] & _)].
    + rewrite C. split; [reflexivity|]. now rewrite events_record, E1.
    + unfold m1 in C. cbn [with_actual_sizes mmap_obj] in C. congruence.
    + unfold close_raises, m1 in C. cbn [with_actual_sizes shm_struct] in C.
      rewrite V in C. discriminate.
  - exists (close_fd os (close_mmap m1)), evs.
    assert (Hm1 : mmap_obj m1 = true) by exact Hm.
    assert (K : close_fd os (close_mmap m1)
                = (if c_close os then record (EvCloseFd (shm_fd m)) (record EvCloseMmap m1)
                   else record EvCloseMmap m1)).
    { rewrite (close_mmap_mapped m1 Hm1). unfold close_fd.
      cbn [record with_log shm_fd]. rewrite F1.
      apply Z.eqb_neq in Hfd. rewrite Hfd. cbn [negb]. now rewrite andb_true_r. }
    split; [exact Hev|]. split; [exact Hall|].
    split; [rewrite K; destruct (c_close os); reflexivity|].
    split; [exact Hfd|].
    split; [rewrite K; destruct (c_close os); now rewrite ?hdr_record|].
    split; [intro C; congruence|].
    intros _ Hc. unfold main_loop. rewrite Hi.
    destruct (close_and_exit_cases m1) as [(_ & R & _)|(_ & C)].
    + unfold close_raises, m1 in R. cbn [with_actual_sizes shm_struct] in R.
      rewrite V in R. discriminate.
    + rewrite C. split; [reflexivity|].
      rewrite K, Hc, !events_record, E1, <- app_assoc. reflexivity.
Qed.


(** Every successful end of start-up. *)
Lemma initialise_proceeds m0 m :
  initialise env os m0 = Proceed m ->
  shm_fd m <> -1 /\ mmap_obj m = true /\
  (0 < ACTUAL_C2A_BUFFER_SIZE m)%N /\ (0 < ACTUAL_A2C_BUFFER_SIZE m)%N /\
  ACTUAL_C2A_BUFFER_SIZE m = defined_c2a_buffer_size (hdr m) /\
  ACTUAL_A2C_BUFFER_SIZE m = defined_a2c_buffer_size (hdr m) /\
  ((from_buffer_raises os = false /\ shm_struct m = InPlace) \/
   (from_buffer_raises os = true /\ exists s, shm_struct m = Snapshot s)) /\
  exists opens, events m = events m0 ++ opens /\ forallb attach_event opens = true.
Proof.
  unfold initialise. intro H.
  destruct (attach_and_map env os m0) as [m1|m1 code|m1 e] eqn:Ea; cbn [and_then] in H;
    [|discriminate|discriminate].
  destruct (attach_and_map_proceeds env os m0 m1 Ea) as (Hfd & Hm & _ & evs & Hev & Hall).
  pose proof (attach_and_map_view m0 m1 Ea) as View.
  destruct (read_defined_sizes_proceeds os m1 m H) as (C & A & Pc & Pa).
  unfold read_defined_sizes in H.
  destruct (_ || _); [unfold close_and_exit in H; destruct (_ && _); discriminate|].
  injection H as <-.
  cbn [with_actual_sizes shm_fd mmap_obj ACTUAL_C2A_BUFFER_SIZE
       ACTUAL_A2C_BUFFER_SIZE shm_struct] in *.
  repeat split; auto.
  exists evs. split; [exact Hev | exact Hall].
Qed.

(** X20: when start-up succeeds the polling loop starts from a state with
    an open descriptor, a mapped segment, and both buffer sizes positive and
    equal to the sizes declared in the control block; the control block is
    in place unless [from_buffer] raised, in which case it is a copy; and
    nothing but calls of [shm_open] and sleeps has happened. *)
Theorem successful_start_up_state m0 m :
  initialise env os m0 = Proceed m ->
  shm_fd m <> -1 /\ mmap_obj m = true /\
  (0 < ACTUAL_C2A_BUFFER_SIZE m)%N /\ (0 < ACTUAL_A2C_BUFFER_SIZE m)%N /\
  ACTUAL_C2A_BUFFER_SIZE m = defined_c2a_buffer_size (hdr m) /\
  ACTUAL_A2C_BUFFER_SIZE m = defined_a2c_buffer_size (hdr m) /\
  ((from_buffer_raises os = false /\ shm_struct m = InPlace) \/
   (from_buffer_raises os = true /\ exists s, shm_struct m = Snapshot s)) /\
  exists opens, events m = events m0 ++ opens /\ forallb attach_event opens = true.
Proof. apply initialise_proceeds. Qed.


End Outcomes.

Lemma zero_buffer_size_leaves_descriptor_open_witness :
  let m0 := boot (segment 0 64 128) in
  let m := machine_of (attach_and_map idle_creator posix_ok m0) in
  let c := machine_of (attach_and_map idle_creator copied_record m0) in
  let r := main_loop lp64_block idle_creator gradient_processing posix_ok 7 7 m0 in
  let r' := main_loop lp64_block idle_creator gradient_processing copied_record 7 7 m0 in
  (attach_and_map idle_creator posix_ok m0 = Proceed m /\
   defined_c2a_buffer_size (hdr m) = 0%N /\
   from_buffer_raises posix_ok = false /\
   r = Done (state_of r) (Uncaught BufferError) /\
   events (state_of r) = [EvShmOpen 0 3; EvCloseMmap] /\
   shm_fd (state_of r) = 3) /\
  (attach_and_map idle_creator copied_record m0 = Proceed c /\
   defined_c2a_buffer_size (hdr c) = 0%N /\
   from_buffer_raises copied_record = true /\ c_close copied_record = true /\
   r' = Done (state_of r') (SysExit 1) /\
   events (state_of r') = [EvShmOpen 0 3; EvCloseMmap; EvCloseFd 3]).
Proof.
  intros m0 m c r r'. split.
  - assert (Ha : attach_and_map idle_creator posix_ok m0 = Proceed m) by reflexivity.
    assert (Hz : defined_c2a_buffer_size (hdr m) = 0%N) by reflexivity.
    assert (Hb : from_buffer_raises posix_ok = false) by reflexivity.
    split; [exact Ha|]. split; [exact Hz|]. split; [exact Hb|].
    destruct (zero_buffer_size_leaves_descriptor_open lp64_block idle_creator
                gradient_processing posix_ok 7 7 m0 m Ha (or_introl Hz))
      as (m' & attaching & _ & _ & _ & _ & _ & Hin & _).
    destruct (Hin Hb) as (E & _).
    assert (Hm' : m' = state_of r) by (unfold r; rewrite E; reflexivity).
    split; [unfold r at 1; rewrite E, Hm'; reflexivity|].
    split; vm_compute; reflexivity.
  - assert (Ha : attach_and_map idle_creator copied_record m0 = Proceed c) by reflexivity.
    assert (Hz : defined_c2a_buffer_size (hdr c) = 0%N) by reflexivity.
    assert (Hb : from_buffer_raises copied_record = true) by reflexivity.
    assert (Hc : c_close copied_record = true) by reflexivity.
    split; [exact Ha|]. split; [exact Hz|]. split; [exact Hb|]. split; [exact Hc|].
    destruct (zero_buffer_size_leaves_descriptor_open lp64_block idle_creator
                gradient_processing copied_record 7 7 m0 c Ha (or_introl Hz))
      as (m' & attaching & _ & _ & _ & _ & _ & _ & Hcopy).
    destruct (Hcopy Hb Hc) as (E & _).
    assert (Hm' : m' = state_of r') by (unfold r'; rewrite E; reflexivity).
    split; [unfold r' at 1; rewrite E, Hm'; reflexivity|].
    vm_compute; reflexivity.
Defined.


Lemma successful_start_up_state_witness :
  let m0 := boot (World (SHM 0 0 0 0 64 32) (repeat "000"%byte 128) true 0) in
  let m := machine_of (initialise idle_creator posix_ok m0) in
  initialise idle_creator posix_ok m0 = Proceed m /\
  shm_fd m = 3 /\ ACTUAL_C2A_BUFFER_SIZE m = 64%N /\ ACTUAL_A2C_BUFFER_SIZE m = 32%N /\
  shm_struct m = InPlace.
Proof.
  intros m0 m.
  assert (H : initialise idle_creator posix_ok m0 = Proceed m) by reflexivity.
  split; [exact H|].
  destruct (successful_start_up_state idle_creator posix_ok m0 m H) as (_ & _).
  repeat split.
Defined.


Lemma idle_loop_only_sleeps_witness :
  let m := attached (SHM 0 0 0 0 64 64) 128 in
  (forall k, (k <= 3)%nat ->
     c_to_a_command (hdr (sleeps idle_creator k m)) = 0 /\
     running (ext (sleeps idle_creator k m)) = true) /\
  polling_loop lp64_block idle_creator gradient_processing 3 0 m
    = Spinning (sleeps idle_creator 3 m).
Proof.
  intro m.
  assert (H : forall k, (k <= 3)%nat ->
            c_to_a_command (hdr (sleeps idle_creator k m)) = 0 /\
            running (ext (sleeps idle_creator k m)) = true).
  { intros k Hk. destruct k as [|[|[|[|k]]]]; [split; reflexivity ..| lia]. }
  split; [exact H|].
  exact (proj1 (idle_loop_only_sleeps lp64_block idle_creator gradient_processing 3 0 m H)).
Defined.

Lemma copied_control_block_sees_no_command_witness :
  let s := SHM 0 0 0 0 64 64 in
  let m := Machine (World s (repeat "000"%byte 128) true 0) 3 true (Snapshot s) 64 64 0 [] in
  shm_struct m = Snapshot s /\ c_to_a_command s = 0 /\
  (forall k, (k <= 2)%nat -> running (ext (sleeps posting_creator k m)) = true) /\
  polling_loop lp64_block posting_creator gradient_processing 2 0 m
    = Spinning (sleeps posting_creator 2 m) /\
  c_to_a_command (shm (ext (sleeps posting_creator 2 m))) = 1 /\
  c_to_a_command (hdr (sleeps posting_creator 2 m)) = 0.
Proof.
  intros s m.
  assert (H1 : shm_struct m = Snapshot s) by reflexivity.
  assert (H2 : c_to_a_command s = 0) by reflexivity.
  assert (H3 : forall k, (k <= 2)%nat -> running (ext (sleeps posting_creator k m)) = true).
  { intros k Hk. destruct k as [|[|[|k]]]; [reflexivity ..| lia]. }
  split; [exact H1|]. split; [exact H2|]. split; [exact H3|].
  destruct (copied_control_block_sees_no_command lp64_block posting_creator
              gradient_processing 2 0 m s H1 H2 H3) as (L & Hh & _).
  split; [exact L|]. split; [reflexivity|]. rewrite Hh. reflexivity.
Defined.

(** *** A whole exchange *)
Section RoundTrip.

Variable cb : N.
Variable env : nat -> world -> world.
Variable example_processing : list byte -> option (list byte).

(** The wait with a deadline leaves at the first poll that finds the
    status 0, when the Acceptor was kept waiting until then. *)
Lemma wait_for_ack_ready_at k limit start : forall m fuel,
  (forall j, (j < k)%nat ->
     busy (sleeps env j m) /\
     Qle_bool (now (ext (sleeps env j m)) - start) limit = true) ->
  a_to_c_status (hdr (sleeps env k m)) = 0 ->
  (k <= fuel)%nat ->
  wait_for_ack env fuel limit start m = Done (sleeps env k m) Ready.
Proof.
  induction k as [|k IH]; intros m fuel Hbusy H0 Hle.
  - cbn [sleeps] in H0. apply Z.eqb_eq in H0.
    destruct fuel; cbn [wait_for_ack sleeps]; now rewrite H0.
  - destruct fuel as [|fuel]; [lia|]. cbn [wait_for_ack].
    destruct (Hbusy O ltac:(lia)) as [[Hs Hr] Hq]. cbn [sleeps] in Hs, Hr, Hq.
    apply Z.eqb_neq in Hs. rewrite Hs, Hr, Hq. cbn [negb].
    apply IH; [|exact H0|lia].
    intros j Hj. apply (Hbusy (S j)). lia.
Qed.

(** X22: a response that fits is published at the first poll that finds
    [a_to_c_status == 0]: when the Creator holds the status for the first
    [k] polls, within the deadline, and has released it at poll [k], the
    respond operation succeeds right there, after exactly [k] sleeps. *)
Theorem response_is_published_at_first_release k fuel data m :
  shm_struct m <> NoStruct -> mmap_obj m = true ->
  (N.of_nat (List.length data) <= ACTUAL_A2C_BUFFER_SIZE m)%N ->
  (forall j, (j < k)%nat ->
     busy (sleeps env j m) /\
     Qle_bool (now (ext (sleeps env j m)) - now (ext m)) 5 = true) ->
  a_to_c_status (hdr (sleeps env k m)) = 0 ->
  (cb + ACTUAL_C2A_BUFFER_SIZE m + N.of_nat (List.length data)
   <= mmap_size cb (sleeps env k m))%N ->
  (k <= fuel)%nat ->
  exists m',
    send_data_to_creator cb env fuel data m = Done m' true /\
    events m' = events m ++ repeat (EvSleep (5 # 1000)) k ++
      [EvWriteA2C (cb + ACTUAL_C2A_BUFFER_SIZE m) data; EvFlush;
       EvSetA2CDataLen (N.of_nat (List.length data)); EvSetA2CStatus 1].
Proof.
  intros Hs Hm Hfit Hbusy H0 Hin Hle. unfold send_data_to_creator.
  rewrite Hm. cbn [negb].
  replace (match shm_struct m with NoStruct => true | _ => false end) with false
    by (destruct (shm_struct m); [congruence | reflexivity | reflexivity]).
  cbn [orb]. apply N.ltb_ge in Hfit. rewrite Hfit.
  rewrite (wait_for_ack_ready_at k 5 (now (ext m)) m fuel Hbusy H0 Hle).
  destruct (mmap_write_inside cb _ data _ Hin) as (m2 & Ew & _).
  apply N.ltb_ge in Hin. rewrite Hin, Ew.
  eexists. split; [reflexivity|].
  fold (publish (N.of_nat (List.length data)) m2).
  rewrite (events_publish cb _ _ _ _ Ew), sleeps_events, <- app_assoc. reflexivity.
Qed.

(** X19: a whole exchange.  With the Creator ready, a message of [data_len]
    bytes that fits the C2A buffer, and an output of the processing block
    that fits the A2C buffer, one DataReady branch leaves the output in the
    A2C buffer with [a_to_c_data_len] its length and [a_to_c_status = 1],
    clears [c_to_a_command], and leaves the C2A buffer as it was. *)
Theorem data_ready_round_trip fuel m out :
  let data_len := c_to_a_data_len (hdr m) in
  let c2a := ACTUAL_C2A_BUFFER_SIZE m in
  let n := N.of_nat (List.length out) in
  shm_struct m <> NoStruct -> mmap_obj m = true ->
  (0 < data_len <= c2a)%N -> (n <= ACTUAL_A2C_BUFFER_SIZE m)%N ->
  (cb + c2a + n <= mmap_size cb m)%N ->
  a_to_c_status (hdr m) = 0 ->
  example_processing (firstn (N.to_nat data_len) (buffers (ext m))) = Some out ->
  exists m',
    data_ready cb env example_processing fuel m = Done m' tt /\
    events m' = events m ++
      [EvReadC2A cb data_len;
       EvProcess (firstn (N.to_nat data_len) (buffers (ext m)));
       EvWriteA2C (cb + c2a) out; EvFlush; EvSetA2CDataLen n; EvSetA2CStatus 1;
       EvSetC2ACommand 0] /\
    a_to_c_status (hdr m') = 1 /\ a_to_c_data_len (hdr m') = n /\
    c_to_a_command (hdr m') = 0 /\
    mmap_slice cb (cb + c2a) n m' = out /\
    mmap_slice cb cb c2a m' = mmap_slice cb cb c2a m.
Proof.
  intros data_len c2a n Hs Hm [Hpos Hcap] Hfit Hin H0 Hout.
  set (input := firstn (N.to_nat data_len) (buffers (ext m))) in *.
  set (m1 := record (EvProcess input) (record (EvReadC2A cb data_len) m)).
  assert (P : process_data_from_creator cb example_processing data_len m
              = (m1, Some out)).
  { unfold process_data_from_creator, get_buffer_view.
    replace (0 <? data_len)%N with true by (symmetry; apply N.ltb_lt; exact Hpos).
    replace (ACTUAL_C2A_BUFFER_SIZE m <? data_len)%N with false
      by (symmetry; apply N.ltb_ge; exact Hcap).
    replace (cb + data_len <=? mmap_size cb m)%N with true
      by (symmetry; apply N.leb_le; unfold c2a in *; lia).
    rewrite Hm. cbn [andb].
    replace (mmap_slice cb cb data_len m) with input
      by (unfold mmap_slice, input; now rewrite N.sub_diag).
    now rewrite Hout. }
  rewrite (data_ready_after_process cb env example_processing fuel m m1 out P).
  destruct (send_data_to_creator_ready cb env fuel out m1 Hs Hm Hfit H0 Hin)
    as (m2 & Ew & E).
  rewrite E. cbn [acknowledge]. eexists. split; [reflexivity|].
  destruct (publish_log cb _ _ _ _ Ew) as [_ Hh].
  destruct (mmap_write_buffers cb _ _ _ _ Ew) as (B & L & _ & _).
  destruct (publish_keeps (N.of_nat (List.length out)) m2) as (Pb & _ & _).
  destruct (ext_upd_hdr (with_c_to_a_command 0)
              (publish (N.of_nat (List.length out)) m2)) as (Cb & _).
  destruct (read_back_written _ out _ L) as (Rb & F & _ & _).
  assert (Bm' : buffers (ext (set_c_to_a_command 0
                                (publish (N.of_nat (List.length out)) m2)))
                = firstn (N.to_nat c2a) (buffers (ext m)) ++ out
                  ++ skipn (N.to_nat c2a + List.length out) (buffers (ext m))).
  { unfold set_c_to_a_command. cbn [record with_log ext].
    rewrite Cb, Pb, B. reflexivity. }
  split; [|split; [|split; [|split; [|split]]]].
  - rewrite events_set_c_to_a_command, (events_publish cb _ _ _ _ Ew).
    unfold m1. rewrite !events_record, <- !app_assoc. reflexivity.
  - rewrite hdr_set_c_to_a_command, Hh. reflexivity.
  - rewrite hdr_set_c_to_a_command, Hh. reflexivity.
  - rewrite hdr_set_c_to_a_command. reflexivity.
  - unfold mmap_slice. rewrite Bm'.
    replace (cb + c2a - cb)%N with c2a by lia.
    unfold n. rewrite Nat2N.id. exact Rb.
  - unfold mmap_slice. rewrite Bm', N.sub_diag. cbn [N.to_nat skipn]. exact F.
Qed.

End RoundTrip.

Lemma response_is_published_at_first_release_witness :
  let m := attached (SHM 1 10 1 29 64 64) 128 in
  shm_struct m <> NoStruct /\ mmap_obj m = true /\
  (N.of_nat (List.length msg_empty_ack) <= ACTUAL_A2C_BUFFER_SIZE m)%N /\
  a_to_c_status (hdr m) = 1 /\
  (forall j, (j < 3)%nat ->
     busy (sleeps slow_reader j m) /\
     Qle_bool (now (ext (sleeps slow_reader j m)) - now (ext m)) 5 = true) /\
  a_to_c_status (hdr (sleeps slow_reader 3 m)) = 0 /\
  exists m',
    send_data_to_creator lp64_block slow_reader 4 msg_empty_ack m = Done m' true /\
    events m' = [EvSleep (5 # 1000); EvSleep (5 # 1000); EvSleep (5 # 1000);
                 EvWriteA2C 200 msg_empty_ack; EvFlush; EvSetA2CDataLen 34;
                 EvSetA2CStatus 1].
Proof.
  intro m.
  assert (H1 : shm_struct m <> NoStruct) by discriminate.
  assert (H2 : mmap_obj m = true) by reflexivity.
  assert (H3 : (N.of_nat (List.length msg_empty_ack) <= ACTUAL_A2C_BUFFER_SIZE m)%N)
    by (vm_compute; discriminate).
  assert (H4 : forall j, (j < 3)%nat ->
            busy (sleeps slow_reader j m) /\
            Qle_bool (now (ext (sleeps slow_reader j m)) - now (ext m)) 5 = true).
  { intros j Hj. unfold busy.
    destruct j as [|[|[|j]]];
      [split; [split; [vm_compute; discriminate | reflexivity]
              | vm_compute; reflexivity] .. | lia]. }
  assert (H5 : a_to_c_status (hdr (sleeps slow_reader 3 m)) = 0) by reflexivity.
  assert (H6 : (lp64_block + ACTUAL_C2A_BUFFER_SIZE m
                + N.of_nat (List.length msg_empty_ack)
                <= mmap_size lp64_block (sleeps slow_reader 3 m))%N)
    by (vm_compute; discriminate).
  assert (H7 : (3 <= 4)%nat) by lia.
  split; [exact H1|]. split; [exact H2|]. split; [exact H3|].
  split; [reflexivity|]. split; [exact H4|]. split; [exact H5|].
  exact (response_is_published_at_first_release lp64_block slow_reader 3 4
           msg_empty_ack m H1 H2 H3 H4 H5 H6 H7).
Defined.

Lemma data_ready_round_trip_witness :
  let m := attached (SHM 1 10 0 0 64 64) 128 in
  shm_struct m <> NoStruct /\ mmap_obj m = true /\
  a_to_c_status (hdr m) = 0 /\
  echo_processing (firstn 10 (buffers (ext m))) = Some (repeat "000"%byte 10) /\
  exists m',
    data_ready lp64_block idle_creator echo_processing 2 m = Done m' tt /\
    a_to_c_status (hdr m') = 1 /\ a_to_c_data_len (hdr m') = 10%N /\
    c_to_a_command (hdr m') = 0.
Proof.
  intro m.
  assert (H1 : shm_struct m <> NoStruct) by discriminate.
  assert (H2 : mmap_obj m = true) by reflexivity.
  assert (H3 : (0 < c_to_a_data_len (hdr m) <= ACTUAL_C2A_BUFFER_SIZE m)%N)
    by (vm_compute; split; [reflexivity | discriminate]).
  assert (H4 : (N.of_nat (List.length (repeat "000"%byte 10)) <= ACTUAL_A2C_BUFFER_SIZE m)%N)
    by (vm_compute; discriminate).
  assert (H5 : (lp64_block + ACTUAL_C2A_BUFFER_SIZE m
                + N.of_nat (List.length (repeat "000"%byte 10))
                <= mmap_size lp64_block m)%N) by (vm_compute; discriminate).
  assert (H6 : a_to_c_status (hdr m) = 0) by reflexivity.
  assert (H7 : echo_processing
                 (firstn (N.to_nat (c_to_a_data_len (hdr m))) (buffers (ext m)))
               = Some (repeat "000"%byte 10)) by reflexivity.
  split; [exact H1|]. split; [exact H2|]. split; [exact H6|]. split; [exact H7|].
  destruct (data_ready_round_trip lp64_block idle_creator echo_processing 2 m
              (repeat "000"%byte 10) H1 H2 H3 H4 H5 H6 H7)
    as (m' & E & _ & S & L & C & _).
  exists m'. split; [exact E|]. split; [exact S|]. split; [exact L | exact C].
Defined.
